(** * The visual query editor of the Greptime data source

    A shallow embedding of [src/components/QueryEditor/VisualQueryEditor.tsx].

    The component is a function that React calls once per render.  Each call
    reads the query object it received from the host, fills in defaults,
    consults four memo cells, and builds a set of closures (the change and
    load handlers) which the rendered segments invoke later.  The embedding
    keeps that shape:

    - JavaScript objects live in a store ([heap]) and are referred to by
      location, so that writing into an object is visible to every holder
      of the reference;
    - a render is a computation in a small state-and-error monad [M] over
      the [world] (store, identity counter, requests sent to the schema
      client, queries handed to the host's [onChange]);
    - the memo cells of [useMemo] are an explicit [Hooks] record threaded
      from one render to the next;
    - a promise is an identity together with the state it has under a given
      behaviour of the backend. *)

From stdpp Require Import base option list strings gmap fin_maps.

Open Scope string_scope.
Open Scope list_scope.
Open Scope nat_scope.

(** ** JavaScript values and objects *)

(** An entry of the array [selectedColumns].  The array is declared
    [string[]], but line 84 appends [select.value] unchecked (the [!] is
    erased at run time), so an entry is a string or [undefined]. *)
Abbreviation entry := (option string).

(** The values a field of the query object can hold. *)
Inductive jsval :=
  | VUndefined
  | VNull
  | VBool (b : bool)
  | VNumber (n : Z)
  | VString (s : string)
  | VArray (a : list entry).

#[global] Instance jsval_eq_dec : EqDecision jsval.
Proof. solve_decision. Defined.

(** An object is a finite map from property names to values. *)
Abbreviation object := (gmap string jsval).

(** Property read [o[k]]: a missing property reads as [undefined]. *)
Definition get (o : object) (k : string) : jsval :=
  default VUndefined (o !! k).

(** The test of a conditional expression [v ? _ : _]. *)
Definition truthy (v : jsval) : bool :=
  match v with
  | VUndefined | VNull => false
  | VBool b => b
  | VNumber n => negb (n =? 0)%Z
  | VString s => negb (String.eqb s "")
  | VArray _ => true
  end.

(** [{ ...o, [k]: v }] : a new object with the properties of [o] and
    property [k] set to [v]. *)
Definition spread_with (o : object) (k : string) (v : jsval) : object :=
  <[k := v]> o.

(** One property of lodash's [defaults(object, source)]: for every key that
    [source] enumerates, the destination property is assigned the source's
    value when it reads [undefined]. *)
Definition assign_default (cur src : option jsval) : option jsval :=
  match src with
  | None => cur
  | Some d =>
      match cur with
      | Some v => if decide (v = VUndefined) then Some d else Some v
      | None => Some d
      end
  end.

Definition defaults_object (o source : object) : object :=
  merge assign_default o source.

(** [Array.prototype.includes], asked for a string: an entry compares equal
    when it is that string. *)
Definition includes (a : list entry) (x : string) : bool :=
  existsb (λ e, match e with
                | Some s => String.eqb x s
                | None => false
                end) a.

(** [a.slice(0, -1)] : everything but the last element. *)
Definition slice_0_m1 {A} (a : list A) : list A :=
  take (length a - 1) a.

(** ** Data of the editor *)

(** [SelectableValue<string>] of Grafana, with its optional fields. *)
Record SelectableValue := { label : option string; value : option string }.

#[global] Instance SelectableValue_eq_dec : EqDecision SelectableValue.
Proof. solve_decision. Defined.

(** One row of the column schema returned by the client. *)
Record ColumnSchema := { name : string; data_type : string }.

#[global] Instance ColumnSchema_eq_dec : EqDecision ColumnSchema.
Proof. solve_decision. Defined.

(** Grafana's [FieldType] enumeration. *)
Inductive FieldType :=
  | FieldType_time
  | FieldType_number
  | FieldType_string
  | FieldType_boolean
  | FieldType_trace
  | FieldType_geo
  | FieldType_enum
  | FieldType_other
  | FieldType_frame
  | FieldType_nestedFrames.

#[global] Instance FieldType_eq_dec : EqDecision FieldType.
Proof. solve_decision. Defined.

Definition toOption (v : string) : SelectableValue :=
  {| label := Some v; value := Some v |}.

(** [toOption] called on an entry of [selectedColumns] (line 126): on a
    string as above, on [undefined] both fields are [undefined]. *)
Definition toOption_entry (e : entry) : SelectableValue :=
  {| label := e; value := e |}.

(** The string that stands for the trailing add button (line 72). *)
Definition sentinel : string := "foobar".

(** ** Promises *)

(** The state of a promise at the moment it is awaited. *)
Inductive outcome (A : Type) :=
  | Pending
  | Fulfilled (a : A)
  | Rejected (reason : string).
Arguments Pending {A}.
Arguments Fulfilled {A} a.
Arguments Rejected {A} reason.

Definition outcome_map {A B} (f : A → B) (o : outcome A) : outcome B :=
  match o with
  | Pending => Pending
  | Fulfilled a => Fulfilled (f a)
  | Rejected e => Rejected e
  end.

(** What the backend has answered, per promise handed out by the client. *)
Record backend := {
  tables_answer : nat → outcome (list string);
  columns_answer : nat → outcome (list ColumnSchema)
}.

(** A promise has an identity ([pid], what [Object.is] compares) and a state
    that depends on the backend's answers. *)
Record promise (A : Type) := Promise { pid : nat; settle : backend → outcome A }.
Arguments Promise {A} pid settle.
Arguments pid {A} p.
Arguments settle {A} p b.

(** ** The world a render runs in *)

Inductive request :=
  | ShowTables (client : nat)
  | QueryColumnSchemaOfTable (client : nat) (table : jsval).

#[global] Instance request_eq_dec : EqDecision request.
Proof. solve_decision. Defined.

Record world := World {
  heap : gmap nat object;          (* objects by location *)
  next_id : nat;                   (* next identity for a promise or array *)
  requests : list (nat * request); (* calls made on the client, oldest first *)
  emitted : list nat               (* arguments of [onChange], oldest first *)
}.

(** Computations that read and write the world and may throw. *)
Definition M (A : Type) : Type := world → option (A * world).

Definition ret {A} (a : A) : M A := λ w, Some (a, w).

Definition bind {A B} (m : M A) (k : A → M B) : M B :=
  λ w, match m w with
       | Some (a, w') => k a w'
       | None => None
       end.

Definition throw {A} : M A := λ _, None.

(** A partial operation: its result, or an exception. *)
Definition or_throw {A} (o : option A) : M A :=
  λ w, match o with
       | Some a => Some (a, w)
       | None => None
       end.

Notation "'let*' x := m 'in' k" := (bind m (λ x, k))
  (at level 10, x name, m at level 100, k at level 200, only parsing).
Notation "'let*' ' pat := m 'in' k" := (bind m (λ x, match x with pat => k end))
  (at level 10, pat pattern, m at level 100, k at level 200, only parsing).

(** Reading the object behind a reference. *)
Definition deref (l : nat) : M object :=
  λ w, match heap w !! l with
       | Some o => Some (o, w)
       | None => None
       end.

(** Overwriting the object behind a reference, in place. *)
Definition store (l : nat) (o : object) : M unit :=
  λ w, Some (tt, World (<[l := o]> (heap w)) (next_id w) (requests w) (emitted w)).

(** Allocating a new object. *)
Definition alloc (o : object) : M nat :=
  λ w, let l := fresh (dom (heap w)) in
       Some (l, World (<[l := o]> (heap w)) (next_id w) (requests w) (emitted w)).

(** A new identity. *)
Definition fresh_id : M nat :=
  λ w, Some (next_id w, World (heap w) (S (next_id w)) (requests w) (emitted w)).

Definition send (id : nat) (r : request) : M unit :=
  λ w, Some (tt, World (heap w) (next_id w) (requests w ++ [(id, r)]) (emitted w)).

(** The host's [onChange] callback: the host receives the reference. *)
Definition onChange (l : nat) : M unit :=
  λ w, Some (tt, World (heap w) (next_id w) (requests w) (emitted w ++ [l])).

(** The world after a new identity was taken, and after a request was sent
    under a new identity. *)
Definition after_fresh (w : world) : world :=
  World (heap w) (S (next_id w)) (requests w) (emitted w).

Definition after_request (w : world) (r : request) : world :=
  World (heap w) (S (next_id w)) (requests w ++ [(next_id w, r)]) (emitted w).

(** The world after object [o] was written at [l]. *)
Definition after_store (w : world) (l : nat) (o : object) : world :=
  World (<[l := o]> (heap w)) (next_id w) (requests w) (emitted w).

(** The world after a new object [o] was allocated and handed to
    [onChange]. *)
Definition after_change (w : world) (o : object) : world :=
  World (<[fresh (dom (heap w)) := o]> (heap w)) (next_id w) (requests w)
        (emitted w ++ [fresh (dom (heap w))]).

(** lodash's [defaults(object, source)] (line 20), as the library documents
    it: it assigns into [object] itself and returns the same reference. *)
Definition defaults (l : nat) (source : object) : M nat :=
  let* o := deref l in
  let* _ := store l (defaults_object o source) in
  ret l.

(** ** The schema client *)

(** Modelled from the spec: [client.showTables] belongs to the data-source
    client, which is not part of the source file.  Section 6 gives it as
    [listTables() → sequence of string (async)].  A call sends one request
    and returns a new promise, whose state is what the backend has answered
    for it. *)
Definition showTables (client : nat) : M (promise (list string)) :=
  let* id := fresh_id in
  let* _ := send id (ShowTables client) in
  ret (Promise id (λ b, tables_answer b id)).

(** Modelled from the spec: [client.queryColumnSchemaOfTable], of the same
    client.  Section 6 gives it as
    [columnsOfTable(name) → sequence of ColumnSchema (async)]. *)
Definition queryColumnSchemaOfTable (client : nat) (table : jsval)
  : M (promise (list ColumnSchema)) :=
  let* id := fresh_id in
  let* _ := send id (QueryColumnSchemaOfTable client table) in
  ret (Promise id (λ b, columns_answer b id)).

(** [Promise.resolve(v)] *)
Definition Promise_resolve {A} (v : A) : M (promise A) :=
  let* id := fresh_id in
  ret (Promise id (λ _, Fulfilled v)).

(** [async () => { const x = await p; return k(x); }] called once: a new
    promise that follows [p]. *)
Definition async_await {A B} (p : promise A) (k : A → B) : M (promise B) :=
  let* id := fresh_id in
  ret (Promise id (λ b, outcome_map k (settle p b))).

(** ** React's [useMemo]

    As the library documents it, and as the comment at lines 37-44 relies
    on: a memo cell remembers the dependencies of the last computation and
    its result.  The factory runs when there is no previous computation or
    when some dependency differs from the remembered one.  Dependencies are
    compared with [Object.is]: objects, promises and arrays by identity,
    strings and [undefined] by value. *)
Definition useMemo {D V} `{EqDecision D}
    (cell : option (D * V)) (factory : M V) (deps : D) : M (V * option (D * V)) :=
  match cell with
  | Some (d, v) =>
      if decide (d = deps) then ret (v, cell)
      else let* v' := factory in ret (v', Some (deps, v'))
  | None => let* v' := factory in ret (v', Some (deps, v'))
  end.

(** The two ways a [useMemo] call can go, as a relation between the world
    before and the value, cell and world after. *)
Inductive memo_step {D V} (cell : option (D * V)) (factory : M V) (deps : D)
    (w : world) : V → option (D * V) → world → Prop :=
  | memo_hit v :
      cell = Some (deps, v) →
      memo_step cell factory deps w v cell w
  | memo_miss v w' :
      (∀ v0, cell ≠ Some (deps, v0)) →
      factory w = Some (v, w') →
      memo_step cell factory deps w v (Some (deps, v)) w'.

(** ** The component *)

Record Props := { client : nat; query : nat }.

(** The memo cells of the four [useMemo] calls, in source order.  The
    dependencies are the client (an object, by identity) and [fromTable]
    (declared [string | undefined], by value); the identity of the column
    schema promise; that identity and the identity of the array
    [selectedColumns], which line 72 creates anew in every render. *)
Record Hooks := {
  cell_getAllTables : option (nat * promise (list string));
  cell_getColumnSchema : option ((nat * jsval) * promise (list ColumnSchema));
  cell_getTimeColumns : option (nat * promise (list SelectableValue));
  cell_unselectedColumnsSchemas : option ((nat * nat) * promise (list ColumnSchema))
}.

(** Hooks of a component that has not rendered yet. *)
Definition mount : Hooks :=
  {| cell_getAllTables := None;
     cell_getColumnSchema := None;
     cell_getTimeColumns := None;
     cell_unselectedColumnsSchemas := None |}.

(** What the closures built by one render have captured. *)
Record Rendered := {
  r_query : nat;
  r_fromTable : jsval;
  r_timeColumn : jsval;
  r_selectedColumns : list entry;
  getAllTables : promise (list string);
  getColumnSchema : promise (list ColumnSchema);
  getTimeColumns : promise (list SelectableValue);
  unselectedColumnsSchemas : promise (list ColumnSchema)
}.

(** [oriSelectedColumns ?? []], on which [concat] is then called.  A value
    that is neither nullish nor an array has no array [concat] and the
    render throws, at line 72 or when the segments are mapped at line 115. *)
Definition nullish_or_array (v : jsval) : option (list entry) :=
  match v with
  | VUndefined | VNull => Some []
  | VArray a => Some a
  | _ => None
  end.

(** The rendered segments below the FROM row (lines 115-131). *)
Inductive segment :=
  | AddSegment
  | SegmentAsync (column : entry).

#[global] Instance segment_eq_dec : EqDecision segment.
Proof. solve_decision. Defined.

Definition segments (selectedColumns : list entry) : list segment :=
  imap (λ idx column,
          if (idx =? length selectedColumns - 1)%nat then AddSegment
          else SegmentAsync column)
       selectedColumns.

(** The sections that wrap the segments, with their label and their React
    key (lines 115-116). *)
Record SegmentSection := {
  section_label : string;
  section_key : entry;
  section_body : segment
}.

Definition sections (selectedColumns : list entry) : list SegmentSection :=
  imap (λ idx column,
          {| section_label := if (idx =? 0)%nat then "SELECT" else "";
             section_key := column;
             section_body :=
               if (idx =? length selectedColumns - 1)%nat then AddSegment
               else SegmentAsync column |})
       selectedColumns.

(** [v ?? d] *)
Definition nullish_coalesce (v d : jsval) : jsval :=
  match v with
  | VUndefined | VNull => d
  | _ => v
  end.

(** What the two pickers of the FROM row show (lines 102 and 110). *)
Definition fromTable_value (r : Rendered) : jsval :=
  nullish_coalesce (r_fromTable r) (VString "select table").

Definition timeColumn_value (r : Rendered) : jsval :=
  nullish_coalesce (r_timeColumn r) (VString "select time column").

Section Editor.

(** [defaultQuery] and [mapGreptimeTypeToGrafana] are imported from
    modules that are not part of the source file. *)
Variable defaultQuery : object.
Variable mapGreptimeTypeToGrafana : string → FieldType.

Definition is_time_column (column : ColumnSchema) : bool :=
  bool_decide (mapGreptimeTypeToGrafana (data_type column) = FieldType_time).

(** Body of the async function at lines 63-68, after the await. *)
Definition timeColumns (columns : list ColumnSchema) : list SelectableValue :=
  (λ column, toOption (name column)) <$> filter is_time_column columns.

(** Body of the async function at lines 74-77, after the await. *)
Definition unselectedColumns (selectedColumns : list entry)
    (columns : list ColumnSchema) : list ColumnSchema :=
  filter (λ column, negb (includes selectedColumns (name column))) columns.

(** One call of the component function, lines 15-96. *)
Definition VisualQueryEditor (props : Props) (h : Hooks) : M (Rendered * Hooks) :=
  let* query := defaults (query props) defaultQuery in
  let* q := deref query in
  let fromTable := get q "fromTable" in
  let timeColumn := get q "timeColumn" in
  let oriSelectedColumns := get q "selectedColumns" in
  let* '(getAllTables, c1) :=
    useMemo (cell_getAllTables h) (showTables (client props)) (client props) in
  let* '(getColumnSchema, c2) :=
    useMemo (cell_getColumnSchema h)
            (if truthy fromTable
             then queryColumnSchemaOfTable (client props) fromTable
             else Promise_resolve [])
            (client props, fromTable) in
  let* '(getTimeColumns, c3) :=
    useMemo (cell_getTimeColumns h)
            (async_await getColumnSchema timeColumns)
            (pid getColumnSchema) in
  let* ori := or_throw (nullish_or_array oriSelectedColumns) in
  let* selectedColumns_id := fresh_id in
  let selectedColumns := ori ++ [Some sentinel] in
  let* '(unselectedColumnsSchemas, c4) :=
    useMemo (cell_unselectedColumnsSchemas h)
            (async_await getColumnSchema (unselectedColumns selectedColumns))
            (pid getColumnSchema, selectedColumns_id) in
  ret ({| r_query := query;
          r_fromTable := fromTable;
          r_timeColumn := timeColumn;
          r_selectedColumns := selectedColumns;
          getAllTables := getAllTables;
          getColumnSchema := getColumnSchema;
          getTimeColumns := getTimeColumns;
          unselectedColumnsSchemas := unselectedColumnsSchemas |},
       {| cell_getAllTables := c1;
          cell_getColumnSchema := c2;
          cell_getTimeColumns := c3;
          cell_unselectedColumnsSchemas := c4 |}).

(** React calls the component [n] more times with the same props, each
    time with the cells the previous call left. *)
Fixpoint rerender (n : nat) (props : Props) (x : Rendered * Hooks)
  : M (Rendered * Hooks) :=
  match n with
  | 0 => ret x
  | S n' =>
      let* x' := VisualQueryEditor props (snd x) in
      rerender n' props x'
  end.

(** *** Change handlers *)

(** Lines 25-27. *)
Definition changeQueryByKey (r : Rendered) (key : string) (v : jsval) : M unit :=
  let* q := deref (r_query r) in
  let* l := alloc (spread_with q key v) in
  onChange l.

Definition select_value (select : SelectableValue) : jsval :=
  match value select with
  | Some s => VString s
  | None => VUndefined
  end.

Definition handleFromTableChange (r : Rendered) (select : SelectableValue) : M unit :=
  changeQueryByKey r "fromTable" (select_value select).

Definition handleTimeColumnChange (r : Rendered) (select : SelectableValue) : M unit :=
  changeQueryByKey r "timeColumn" (select_value select).

(** Lines 83-86.  [select.value!] checks nothing at run time: an absent
    value is appended as [undefined]. *)
Definition handleAddColumn (r : Rendered) (select : SelectableValue) : M unit :=
  let newSelectedColumns := slice_0_m1 (r_selectedColumns r) ++ [value select] in
  changeQueryByKey r "selectedColumns" (VArray newSelectedColumns).

(** The [onChange] of a column segment, lines 123-125. *)
Definition handleReselect (r : Rendered) (select : SelectableValue) : M unit :=
  ret tt.

(** *** Option loaders

    Each is an async function; what matters of the promise it returns is
    its state, given as a function of the backend's answers. *)

Definition handleLoadFromTables (r : Rendered) (b : backend)
  : outcome (list SelectableValue) :=
  outcome_map (fmap toOption) (settle (getAllTables r) b).

Definition loadTimeColumns (r : Rendered) (b : backend)
  : outcome (list SelectableValue) :=
  settle (getTimeColumns r) b.

Definition handleLoadUnselectedColumns (r : Rendered) (b : backend)
  : outcome (list SelectableValue) :=
  outcome_map (fmap (λ column, toOption (name column)))
              (settle (unselectedColumnsSchemas r) b).

Definition handleLoadReselectColumns (r : Rendered) (selfVal : entry) (b : backend)
  : outcome (list SelectableValue) :=
  outcome_map (λ rest, [toOption_entry selfVal] ++ rest)
              (handleLoadUnselectedColumns r b).

(** *** The rendered segments and their wiring *)

Definition segment_loadOptions (r : Rendered) (s : segment)
  : backend → outcome (list SelectableValue) :=
  match s with
  | AddSegment => handleLoadUnselectedColumns r
  | SegmentAsync column => handleLoadReselectColumns r column
  end.

Definition segment_onChange (r : Rendered) (s : segment)
  : SelectableValue → M unit :=
  match s with
  | AddSegment => handleAddColumn r
  | SegmentAsync _ => handleReselect r
  end.

(** The user opens the picker of slot [idx] and chooses [select]. *)
Definition choose_in_slot (r : Rendered) (idx : nat) (select : SelectableValue)
  : M unit :=
  match segments (r_selectedColumns r) !! idx with
  | Some s => segment_onChange r s select
  | None => throw
  end.

(** The pickers on screen (lines 100-131): the table, the time column, and
    one per segment. *)
Inductive picker :=
  | FromTable_picker
  | TimeColumn_picker
  | Slot_picker (idx : nat).

(** The user chooses [select] in a picker: its [onChange] runs. *)
Definition choose (r : Rendered) (p : picker) (select : SelectableValue) : M unit :=
  match p with
  | FromTable_picker => handleFromTableChange r select
  | TimeColumn_picker => handleTimeColumnChange r select
  | Slot_picker idx => choose_in_slot r idx select
  end.

(** *** Consistency of the memo cells

    What the cells of a mounted component satisfy between renders, [n]
    being the identity counter: identities stored in the cells have been
    handed out already, and a cached promise computes what its factory
    says. *)
Definition hooks_ok (n : nat) (h : Hooks) : Prop :=
  (∀ c p, cell_getAllTables h = Some (c, p) →
     pid p < n ∧ ∀ b, settle p b = tables_answer b (pid p)) ∧
  (∀ c fromTable p, cell_getColumnSchema h = Some ((c, fromTable), p) →
     pid p < n ∧
     ∀ b, settle p b = if truthy fromTable then columns_answer b (pid p)
                       else Fulfilled []) ∧
  (∀ d p, cell_getTimeColumns h = Some (d, p) →
     d < n ∧
     ∀ k p0, cell_getColumnSchema h = Some (k, p0) → pid p0 = d →
       ∀ b, settle p b = outcome_map timeColumns (settle p0 b)) ∧
  (∀ d a p, cell_unselectedColumnsSchemas h = Some ((d, a), p) → a < n).

End Editor.

(** ** The host

    The host owns the query: the editor receives a reference to it and hands
    every new query to [onChange].  After a gesture the host holds the last
    query it was handed, or the one it had. *)
Definition handed_over (before after : world) : list nat :=
  drop (length (emitted before)) (emitted after).

Definition host_query (l : nat) (before after : world) : nat :=
  default l (last (handed_over before after)).

(** The selection stored in the query object at [l]. *)
Definition selection (w : world) (l : nat) : option (list entry) :=
  match heap w !! l with
  | Some o => nullish_or_array (get o "selectedColumns")
  | None => None
  end.

(** ** A concrete editor

    The running example: table [metrics] with a time column [ts] and a float
    column [cpu].  [defaultQuery] and the type mapper are instances chosen
    for the example: one default, for a property the editor does not show,
    and a mapper that knows the two types of the example. *)
Module Scenario.

Definition defaultQuery : object := {[ "queryText" := VString "" ]}.

Definition mapGreptimeTypeToGrafana (data_type : string) : FieldType :=
  if String.eqb data_type "TIME" then FieldType_time
  else if String.eqb data_type "FLOAT" then FieldType_number
  else FieldType_other.

Definition ts : ColumnSchema := {| name := "ts"; data_type := "TIME" |}.
Definition cpu : ColumnSchema := {| name := "cpu"; data_type := "FLOAT" |}.
Definition foobar : ColumnSchema := {| name := "foobar"; data_type := "FLOAT" |}.

(** The backend answers every request at once. *)
Definition answers (columns : list ColumnSchema) : backend :=
  {| tables_answer := λ _, Fulfilled ["metrics"];
     columns_answer := λ _, Fulfilled columns |}.

(** The backend rejects every request. *)
Definition failing : backend :=
  {| tables_answer := λ _, Rejected "unavailable";
     columns_answer := λ _, Rejected "unavailable" |}.

(** A host holding one query object, at location 1. *)
Definition host (o : object) : world :=
  {| heap := {[ 1 := o ]}; next_id := 0; requests := []; emitted := [] |}.

Definition props : Props := {| client := 7; query := 1 |}.

(** The props after the host was handed the object at [l]. *)
Definition props_at (l : nat) : Props := {| client := 7; query := l |}.

Definition query_of (fromTable : string) (selectedColumns : list string) : object :=
  {[ "refId" := VString "A";
     "fromTable" := VString fromTable;
     "selectedColumns" := VArray (Some <$> selectedColumns) ]}.

(** A query as the host creates it for a new panel. *)
Definition new_query : object := {[ "refId" := VString "A" ]}.

(** A query whose [selectedColumns] is a string, not an array. *)
Definition ill_typed_query : object :=
  {[ "refId" := VString "A"; "selectedColumns" := VString "cpu" ]}.

Definition render := VisualQueryEditor defaultQuery mapGreptimeTypeToGrafana.

(** What the closures of the first render capture when the host's query
    has table [metrics] and [cpu] selected. *)
Definition closures : Rendered :=
  {| r_query := 1;
     r_fromTable := VString "metrics";
     r_timeColumn := VUndefined;
     r_selectedColumns := [Some "cpu"; Some sentinel];
     getAllTables := Promise 0 (λ b, tables_answer b 0);
     getColumnSchema := Promise 1 (λ b, columns_answer b 1);
     getTimeColumns :=
       Promise 2 (λ b, outcome_map (timeColumns mapGreptimeTypeToGrafana)
                                   (columns_answer b 1));
     unselectedColumnsSchemas :=
       Promise 4 (λ b, outcome_map (unselectedColumns [Some "cpu"; Some sentinel])
                                   (columns_answer b 1)) |}.

(** The first render of a newly mounted editor for the host's query [o]. *)
Definition first_render (o : object) : option (Rendered * Hooks * world) :=
  render props mount (host o).

(** What a picker of that render loads under backend [b]. *)
Definition offered (o : object)
    (load : Rendered → backend → outcome (list SelectableValue)) (b : backend)
  : option (outcome (list SelectableValue)) :=
  match first_render o with
  | Some (r, _, _) => Some (load r b)
  | None => None
  end.

(** The user chooses [select] in slot [idx] of that render: the queries
    handed to the host, and the selection the host holds afterwards. *)
Definition after_choice (o : object) (idx : nat) (select : SelectableValue)
  : option (list nat * option (list entry)) :=
  match first_render o with
  | Some (r, _, w1) =>
      match choose_in_slot r idx select w1 with
      | Some (_, w2) =>
          Some (handed_over w1 w2, selection w2 (host_query (query props) w1 w2))
      | None => None
      end
  | None => None
  end.

End Scenario.

(** * Properties *)

(** ** Arrays and objects *)

Lemma includes_true (a : list entry) (x : string) :
  includes a x = true ↔ Some x ∈ a.
Proof.
  unfold includes. rewrite existsb_exists. split.
  - intros ([y|] & Hy & Heq); [| done]. apply String.eqb_eq in Heq. subst y.
    by apply list_elem_of_In.
  - intros Hx. exists (Some x).
    split; [by apply list_elem_of_In | apply String.eqb_refl].
Qed.

Lemma includes_false (a : list entry) (x : string) :
  includes a x = false ↔ Some x ∉ a.
Proof.
  rewrite <- includes_true. destruct (includes a x); split; congruence.
Qed.

Lemma slice_0_m1_snoc {A} (a : list A) (x : A) :
  slice_0_m1 (a ++ [x]) = a.
Proof.
  unfold slice_0_m1. rewrite length_app. simpl.
  replace (length a + 1 - 1) with (length a) by lia.
  by rewrite take_app_length.
Qed.

Lemma get_spread_with_eq (o : object) (k : string) (v : jsval) :
  get (spread_with o k v) k = v.
Proof. unfold get, spread_with. by rewrite lookup_insert_eq. Qed.

Lemma get_spread_with_ne (o : object) (k k' : string) (v : jsval) :
  k ≠ k' → get (spread_with o k v) k' = get o k'.
Proof. intros. unfold get, spread_with. by rewrite lookup_insert_ne. Qed.

Lemma lookup_defaults_object (o source : object) (k : string) :
  defaults_object o source !! k = assign_default (o !! k) (source !! k).
Proof.
  unfold defaults_object. rewrite lookup_merge.
  by destruct (o !! k), (source !! k).
Qed.

(** A property that already holds a value keeps it. *)
Lemma get_defaults_object_set (o source : object) (k : string) :
  get o k ≠ VUndefined → get (defaults_object o source) k = get o k.
Proof.
  unfold get. rewrite lookup_defaults_object.
  destruct (o !! k) as [v|], (source !! k) as [d|]; simpl; try done.
  intros. by case_decide.
Qed.

(** A property that reads [undefined] takes the default. *)
Lemma get_defaults_object_unset (o source : object) (k : string) :
  get o k = VUndefined → get (defaults_object o source) k = get source k.
Proof.
  unfold get. rewrite lookup_defaults_object.
  destruct (o !! k) as [v|], (source !! k) as [d|]; simpl; try done.
  intros ->. by case_decide.
Qed.

(** ** The monad *)

Lemma bind_Some {A B} (m : M A) (k : A → M B) (w : world) a w' :
  m w = Some (a, w') → bind m k w = k a w'.
Proof. unfold bind. by intros ->. Qed.

(** ** [useMemo] *)

Lemma useMemo_step {D V} `{EqDecision D} (cell : option (D * V))
    (factory : M V) (deps : D) (w : world) :
  (∃ v w', factory w = Some (v, w')) →
  ∃ v c w', useMemo cell factory deps w = Some ((v, c), w') ∧
            memo_step cell factory deps w v c w'.
Proof.
  intros (v' & w' & Hf). unfold useMemo.
  destruct cell as [[d v]|].
  - case_decide as Hd.
    + subst d. exists v, (Some (deps, v)), w. split; [done | by constructor].
    + exists v', (Some (deps, v')), w'. rewrite (bind_Some _ _ _ _ _ Hf).
      split; [done |]. constructor; [congruence | done].
  - exists v', (Some (deps, v')), w'. rewrite (bind_Some _ _ _ _ _ Hf).
    split; [done |]. by constructor.
Qed.

Lemma showTables_run (c : nat) (w : world) :
  showTables c w
  = Some (Promise (next_id w) (λ b, tables_answer b (next_id w)),
          after_request w (ShowTables c)).
Proof. reflexivity. Qed.

Lemma queryColumnSchemaOfTable_run (c : nat) (t : jsval) (w : world) :
  queryColumnSchemaOfTable c t w
  = Some (Promise (next_id w) (λ b, columns_answer b (next_id w)),
          after_request w (QueryColumnSchemaOfTable c t)).
Proof. reflexivity. Qed.

Lemma Promise_resolve_run {A} (v : A) (w : world) :
  Promise_resolve v w = Some (Promise (next_id w) (λ _, Fulfilled v), after_fresh w).
Proof. reflexivity. Qed.

Lemma async_await_run {A B} (p : promise A) (k : A → B) (w : world) :
  async_await p k w
  = Some (Promise (next_id w) (λ b, outcome_map k (settle p b)), after_fresh w).
Proof. reflexivity. Qed.

(** ** One render *)

Section Render.

Context (defaultQuery : object) (mapGreptimeTypeToGrafana : string → FieldType).

Local Abbreviation VisualQueryEditor :=
  (VisualQueryEditor defaultQuery mapGreptimeTypeToGrafana).
Local Abbreviation timeColumns := (timeColumns mapGreptimeTypeToGrafana).
Local Abbreviation cells_ok := (hooks_ok mapGreptimeTypeToGrafana).

(** The factory of the column schema, line 55. *)
Local Abbreviation columnSchema_factory c fromTable :=
  (if truthy fromTable then queryColumnSchemaOfTable c fromTable
   else Promise_resolve []).

(** A render of a query object whose [selectedColumns] is an array or
    nullish goes through, as four memo steps in a row. *)
Lemma render_run (props : Props) (h : Hooks) (w : world) (o : object)
    (sel : list entry) :
  heap w !! query props = Some o →
  nullish_or_array (get (defaults_object o defaultQuery) "selectedColumns")
    = Some sel →
  let q := defaults_object o defaultQuery in
  let fromTable := get q "fromTable" in
  ∃ p1 c1 w1 p2 c2 w2 p3 c3 w3 p4 c4 w4,
    memo_step (cell_getAllTables h) (showTables (client props)) (client props)
              (after_store w (query props) q) p1 c1 w1 ∧
    memo_step (cell_getColumnSchema h)
              (columnSchema_factory (client props) fromTable)
              (client props, fromTable) w1 p2 c2 w2 ∧
    memo_step (cell_getTimeColumns h) (async_await p2 timeColumns) (pid p2)
              w2 p3 c3 w3 ∧
    memo_step (cell_unselectedColumnsSchemas h)
              (async_await p2 (unselectedColumns (sel ++ [Some sentinel])))
              (pid p2, next_id w3) (after_fresh w3) p4 c4 w4 ∧
    VisualQueryEditor props h w
    = Some ({| r_query := query props;
               r_fromTable := fromTable;
               r_timeColumn := get q "timeColumn";
               r_selectedColumns := sel ++ [Some sentinel];
               getAllTables := p1;
               getColumnSchema := p2;
               getTimeColumns := p3;
               unselectedColumnsSchemas := p4 |},
            {| cell_getAllTables := c1;
               cell_getColumnSchema := c2;
               cell_getTimeColumns := c3;
               cell_unselectedColumnsSchemas := c4 |},
            w4).
Proof.
  intros Ho Hsel q fromTable.
  change (nullish_or_array (get q "selectedColumns") = Some sel) in Hsel.
  set (w0 := after_store w (query props) q).
  assert (Hd : defaults (query props) defaultQuery w = Some (query props, w0)).
  { unfold defaults, bind, deref, store. by rewrite Ho. }
  assert (Hq : deref (query props) w0 = Some (q, w0)).
  { unfold deref, w0, after_store. simpl. by rewrite lookup_insert_eq. }
  destruct (useMemo_step (cell_getAllTables h) (showTables (client props))
              (client props) w0) as (p1 & c1 & w1 & E1 & S1).
  { rewrite showTables_run. eauto. }
  destruct (useMemo_step (cell_getColumnSchema h)
              (columnSchema_factory (client props) fromTable)
              (client props, fromTable) w1) as (p2 & c2 & w2 & E2 & S2).
  { destruct (truthy fromTable);
      [rewrite queryColumnSchemaOfTable_run | rewrite Promise_resolve_run]; eauto. }
  destruct (useMemo_step (cell_getTimeColumns h) (async_await p2 timeColumns)
              (pid p2) w2) as (p3 & c3 & w3 & E3 & S3).
  { rewrite async_await_run. eauto. }
  destruct (useMemo_step (cell_unselectedColumnsSchemas h)
              (async_await p2 (unselectedColumns (sel ++ [Some sentinel])))
              (pid p2, next_id w3) (after_fresh w3)) as (p4 & c4 & w4 & E4 & S4).
  { rewrite async_await_run. eauto. }
  exists p1, c1, w1, p2, c2, w2, p3, c3, w3, p4, c4, w4.
  repeat (split; [done |]).
  unfold VisualQueryEditor.
  rewrite (bind_Some _ _ _ _ _ Hd), (bind_Some _ _ _ _ _ Hq).
  fold q. fold fromTable.
  rewrite (bind_Some _ _ _ _ _ E1), (bind_Some _ _ _ _ _ E2),
    (bind_Some _ _ _ _ _ E3).
  rewrite Hsel. unfold or_throw at 1. unfold bind at 1.
  unfold bind at 1, fresh_id at 1. fold (after_fresh w3).
  by rewrite (bind_Some _ _ _ _ _ E4).
Qed.

(** Inversion of a memo step whose factory is one of the component's. *)
Ltac memo_inv S :=
  let Hf := fresh "Hf" in
  let Hcell := fresh "Hcell" in
  let Hmiss := fresh "Hmiss" in
  inversion S as [? Hcell | ? ? Hmiss Hf]; subst;
  [ | first [ rewrite showTables_run in Hf
            | rewrite queryColumnSchemaOfTable_run in Hf
            | rewrite Promise_resolve_run in Hf
            | rewrite async_await_run in Hf ];
      injection Hf as <- <- ].

(** *** The four memo steps, one by one

    [n] bounds the identities stored in the cells before the render. *)

Lemma memo_getAllTables (c n : nat) cell (w w' : world) p c' :
  memo_step cell (showTables c) c w p c' w' →
  (∀ c0 p0, cell = Some (c0, p0) →
     pid p0 < n ∧ ∀ b, settle p0 b = tables_answer b (pid p0)) →
  n ≤ next_id w →
  heap w' = heap w ∧ emitted w' = emitted w ∧ next_id w ≤ next_id w' ∧
  c' = Some (c, p) ∧ pid p < next_id w' ∧
  (∀ b, settle p b = tables_answer b (pid p)).
Proof.
  intros S Hok Hn. memo_inv S; simpl.
  - destruct (Hok _ _ eq_refl) as [? ?]. repeat split; try done; lia.
  - repeat split; try done; lia.
Qed.

Lemma memo_getColumnSchema (c n : nat) (fromTable : jsval) cell (w w' : world) p c' :
  memo_step cell (columnSchema_factory c fromTable) (c, fromTable) w p c' w' →
  (∀ c0 t0 p0, cell = Some ((c0, t0), p0) →
     pid p0 < n ∧
     ∀ b, settle p0 b = if truthy t0 then columns_answer b (pid p0)
                        else Fulfilled []) →
  n ≤ next_id w →
  heap w' = heap w ∧ emitted w' = emitted w ∧ next_id w ≤ next_id w' ∧
  c' = Some ((c, fromTable), p) ∧ pid p < next_id w' ∧
  (∀ b, settle p b = if truthy fromTable then columns_answer b (pid p)
                     else Fulfilled []) ∧
  (cell = Some ((c, fromTable), p) ∨ n ≤ pid p).
Proof.
  intros S Hok Hn. destruct (truthy fromTable) eqn:Ht; memo_inv S; simpl.
  - destruct (Hok _ _ _ eq_refl) as [? Hs]. rewrite Ht in Hs.
    repeat split; try done; try lia; by left.
  - repeat split; try done; try lia; by right.
  - destruct (Hok _ _ _ eq_refl) as [? Hs]. rewrite Ht in Hs.
    repeat split; try done; try lia; by left.
  - repeat split; try done; try lia; by right.
Qed.

Lemma memo_getTimeColumns (n : nat) cell
    (cell2 : option ((nat * jsval) * promise (list ColumnSchema)))
    (w w' : world) p2 p c' k2 :
  memo_step cell (async_await p2 timeColumns) (pid p2) w p c' w' →
  (∀ d p0, cell = Some (d, p0) →
     d < n ∧
     ∀ k p1, cell2 = Some (k, p1) → pid p1 = d →
       ∀ b, settle p0 b = outcome_map timeColumns (settle p1 b)) →
  (cell2 = Some (k2, p2) ∨ n ≤ pid p2) →
  heap w' = heap w ∧ emitted w' = emitted w ∧ requests w' = requests w ∧
  next_id w ≤ next_id w' ∧ c' = Some (pid p2, p) ∧
  (∀ b, settle p b = outcome_map timeColumns (settle p2 b)).
Proof.
  intros S Hok Hp2. memo_inv S; simpl.
  - destruct (Hok _ _ eq_refl) as [Hd Hs].
    destruct Hp2 as [Hc | Hge]; [| lia].
    repeat split; try done. intros b. by apply (Hs _ _ Hc).
  - repeat split; try done; lia.
Qed.

Lemma memo_unselectedColumnsSchemas (n : nat) cell (w w' : world) p2 p c'
    (selectedColumns : list entry) :
  memo_step cell (async_await p2 (unselectedColumns selectedColumns))
            (pid p2, next_id w) (after_fresh w) p c' w' →
  (∀ d a p0, cell = Some ((d, a), p0) → a < n) →
  n ≤ next_id w →
  heap w' = heap w ∧ emitted w' = emitted w ∧ requests w' = requests w ∧
  S (S (next_id w)) = next_id w' ∧ c' = Some ((pid p2, next_id w), p) ∧
  (∀ b, settle p b
        = outcome_map (unselectedColumns selectedColumns) (settle p2 b)).
Proof.
  intros S Hok Hn. memo_inv S; simpl.
  - specialize (Hok _ _ _ eq_refl). lia.
  - by repeat split.
Qed.

(** A render that went through is the one [render_run] describes. *)
Ltac render_inv h Ho Hsel Hr :=
  let p1 := fresh "p1" in let c1 := fresh "c1" in let w1 := fresh "w1" in
  let p2 := fresh "p2" in let c2 := fresh "c2" in let w2 := fresh "w2" in
  let p3 := fresh "p3" in let c3 := fresh "c3" in let w3 := fresh "w3" in
  let p4 := fresh "p4" in let c4 := fresh "c4" in let w4 := fresh "w4" in
  let S1 := fresh "S1" in let S2 := fresh "S2" in
  let S3 := fresh "S3" in let S4 := fresh "S4" in
  let E := fresh "E" in
  destruct (render_run _ h _ _ _ Ho Hsel)
    as (p1 & c1 & w1 & p2 & c2 & w2 & p3 & c3 & w3 & p4 & c4 & w4
        & S1 & S2 & S3 & S4 & E);
  rewrite E in Hr; injection Hr as <- <- <-; clear E.

(** A render writes the defaulted object over the host's, calls no
    [onChange], and shows the stored selection followed by the sentinel. *)
Lemma render_frame (props : Props) (h h' : Hooks) (w w' : world) (o : object)
    (sel : list entry) (r : Rendered) :
  heap w !! query props = Some o →
  nullish_or_array (get (defaults_object o defaultQuery) "selectedColumns")
    = Some sel →
  VisualQueryEditor props h w = Some (r, h', w') →
  let q := defaults_object o defaultQuery in
  r_query r = query props ∧
  r_fromTable r = get q "fromTable" ∧
  r_selectedColumns r = sel ++ [Some sentinel] ∧
  heap w' = <[query props := q]> (heap w) ∧
  emitted w' = emitted w.
Proof.
  intros Ho Hsel Hr q. render_inv h Ho Hsel Hr. fold q in S1, S2. simpl.
  assert (heap w1 = <[query props := q]> (heap w) ∧ emitted w1 = emitted w)
    as [Hh1 He1] by (by memo_inv S1).
  assert (heap w2 = heap w1 ∧ emitted w2 = emitted w1) as [Hh2 He2]
    by (by destruct (truthy (get q "fromTable")); memo_inv S2).
  assert (heap w3 = heap w2 ∧ emitted w3 = emitted w2) as [Hh3 He3]
    by (by memo_inv S3).
  assert (heap w4 = heap w3 ∧ emitted w4 = emitted w3) as [Hh4 He4]
    by (by memo_inv S4).
  split_and!; try done; congruence.
Qed.

Lemma render_total (props : Props) (h : Hooks) (w : world) (o : object)
    (sel : list entry) :
  heap w !! query props = Some o →
  nullish_or_array (get (defaults_object o defaultQuery) "selectedColumns")
    = Some sel →
  ∃ r h' w', VisualQueryEditor props h w = Some (r, h', w').
Proof.
  intros Ho Hsel.
  destruct (render_run _ h _ _ _ Ho Hsel)
    as (p1 & c1 & w1 & p2 & c2 & w2 & p3 & c3 & w3 & p4 & c4 & w4
        & _ & _ & _ & _ & E).
  eauto.
Qed.

(** The cells a render leaves behind and the promises its closures hold. *)
Lemma render_spec (props : Props) (h h' : Hooks) (w w' : world) (o : object)
    (sel : list entry) (r : Rendered) :
  heap w !! query props = Some o →
  nullish_or_array (get (defaults_object o defaultQuery) "selectedColumns")
    = Some sel →
  cells_ok (next_id w) h →
  VisualQueryEditor props h w = Some (r, h', w') →
  let q := defaults_object o defaultQuery in
  next_id w ≤ next_id w' ∧
  cells_ok (next_id w') h' ∧
  cell_getAllTables h' = Some (client props, getAllTables r) ∧
  cell_getColumnSchema h'
    = Some ((client props, get q "fromTable"), getColumnSchema r) ∧
  pid (getAllTables r) < next_id w' ∧
  pid (getColumnSchema r) < next_id w' ∧
  (∀ b, settle (getColumnSchema r) b
        = if truthy (get q "fromTable")
          then columns_answer b (pid (getColumnSchema r))
          else Fulfilled []) ∧
  (∀ b, settle (getTimeColumns r) b
        = outcome_map timeColumns (settle (getColumnSchema r) b)) ∧
  (∀ b, settle (unselectedColumnsSchemas r) b
        = outcome_map (unselectedColumns (sel ++ [Some sentinel]))
                      (settle (getColumnSchema r) b)).
Proof.
  intros Ho Hsel (H1 & H2 & H3 & H4) Hr q.
  render_inv h Ho Hsel Hr. fold q in S1, S2. simpl.
  destruct (memo_getAllTables _ (next_id w) _ _ _ _ _ S1 H1)
    as (_ & _ & Hn1 & Hc1 & Hp1 & Hs1); [done |].
  destruct (memo_getColumnSchema _ (next_id w) _ _ _ _ _ _ S2 H2)
    as (_ & _ & Hn2 & Hc2 & Hp2 & Hs2 & Hor); [done |].
  destruct (memo_getTimeColumns (next_id w) _ _ _ _ _ _ _
              (client props, get q "fromTable") S3 H3 Hor)
    as (_ & _ & _ & Hn3 & Hc3 & Hs3).
  destruct (memo_unselectedColumnsSchemas (next_id w) _ _ _ _ _ _ _ S4 H4)
    as (_ & _ & _ & Hn4 & Hc4 & Hs4); [simpl in *; lia |].
  simpl in *.
  assert (cells_ok (next_id w4)
            {| cell_getAllTables := c1; cell_getColumnSchema := c2;
               cell_getTimeColumns := c3;
               cell_unselectedColumnsSchemas := c4 |}) as Hok'.
  { unfold hooks_ok. simpl. split_and!.
    - intros ? ? Hc. rewrite Hc1 in Hc. injection Hc as <- <-.
      split; [lia | done].
    - intros ? ? ? Hc. rewrite Hc2 in Hc. injection Hc as <- <- <-.
      split; [lia | done].
    - intros ? ? Hc. rewrite Hc3 in Hc. injection Hc as <- <-.
      split; [lia |]. intros ? ? Hk _. rewrite Hc2 in Hk.
      by injection Hk as <- <-.
    - intros ? ? ? Hc. rewrite Hc4 in Hc. injection Hc as <- <- <-. lia. }
  split_and!; try done; lia.
Qed.

(** The consistency of the cells is an invariant of rendering. *)
Lemma render_hooks_ok (props : Props) (h h' : Hooks) (w w' : world) (o : object)
    (sel : list entry) (r : Rendered) :
  heap w !! query props = Some o →
  nullish_or_array (get (defaults_object o defaultQuery) "selectedColumns")
    = Some sel →
  cells_ok (next_id w) h →
  VisualQueryEditor props h w = Some (r, h', w') →
  cells_ok (next_id w') h'.
Proof.
  intros Ho Hsel Hok Hr.
  by destruct (render_spec _ _ _ _ _ _ _ _ Ho Hsel Hok Hr) as (_ & ? & _).
Qed.

(** A cell that holds the current dependencies answers without running the
    factory; any other cell runs it. *)
Lemma memo_step_hit {D V} (cell : option (D * V)) (factory : M V) (deps : D)
    (w w' : world) v c' v0 :
  memo_step cell factory deps w v c' w' →
  cell = Some (deps, v0) →
  v = v0 ∧ w' = w.
Proof.
  intros S Hc. destruct S as [v Hcell | v w' Hmiss Hf].
  - rewrite Hc in Hcell. by injection Hcell as <-.
  - by destruct (Hmiss v0).
Qed.

Lemma memo_step_miss {D V} (cell : option (D * V)) (factory : M V) (deps : D)
    (w w' : world) v c' :
  memo_step cell factory deps w v c' w' →
  (∀ v0, cell ≠ Some (deps, v0)) →
  factory w = Some (v, w').
Proof.
  intros S Hc. destruct S as [v Hcell | v w' Hmiss Hf]; [| done].
  by destruct (Hc v).
Qed.

(** How a render uses the cells it was given. *)
Lemma render_memo (props : Props) (h h' : Hooks) (w w' : world) (o : object)
    (sel : list entry) (r : Rendered) :
  heap w !! query props = Some o →
  nullish_or_array (get (defaults_object o defaultQuery) "selectedColumns")
    = Some sel →
  cells_ok (next_id w) h →
  VisualQueryEditor props h w = Some (r, h', w') →
  let key := (client props, get (defaults_object o defaultQuery) "fromTable") in
  (∀ p, cell_getAllTables h = Some (client props, p) → getAllTables r = p) ∧
  (∀ p, cell_getColumnSchema h = Some (key, p) → getColumnSchema r = p) ∧
  (∀ p1 p2, cell_getAllTables h = Some (client props, p1) →
            cell_getColumnSchema h = Some (key, p2) →
            requests w' = requests w) ∧
  ((∀ p, cell_getAllTables h ≠ Some (client props, p)) →
   next_id w ≤ pid (getAllTables r) ∧
   (pid (getAllTables r), ShowTables (client props)) ∈ requests w') ∧
  ((∀ p, cell_getColumnSchema h ≠ Some (key, p)) →
   next_id w ≤ pid (getColumnSchema r)).
Proof.
  intros Ho Hsel (H1 & H2 & H3 & H4) Hr key.
  render_inv h Ho Hsel Hr. simpl.
  set (q := defaults_object o defaultQuery) in *.
  destruct (memo_getAllTables _ (next_id w) _ _ _ _ _ S1 H1)
    as (_ & _ & Hn1 & _); [done |].
  destruct (memo_getColumnSchema _ (next_id w) _ _ _ _ _ _ S2 H2)
    as (_ & _ & Hn2 & _ & _ & _ & Hor); [done |].
  destruct (memo_getTimeColumns (next_id w) _ _ _ _ _ _ _ key S3 H3 Hor)
    as (_ & _ & Hr3 & Hn3 & _).
  destruct (memo_unselectedColumnsSchemas (next_id w) _ _ _ _ _ _ _ S4 H4)
    as (_ & _ & Hr4 & _); [simpl in *; lia |].
  simpl in *. split_and!.
  - intros p Hc. by destruct (memo_step_hit _ _ _ _ _ _ _ _ S1 Hc).
  - intros p Hc. by destruct (memo_step_hit _ _ _ _ _ _ _ _ S2 Hc).
  - intros p1' p2' Hc1 Hc2.
    destruct (memo_step_hit _ _ _ _ _ _ _ _ S1 Hc1) as [_ ->].
    destruct (memo_step_hit _ _ _ _ _ _ _ _ S2 Hc2) as [_ ->].
    by rewrite Hr4, Hr3.
  - intros Hm. pose proof (memo_step_miss _ _ _ _ _ _ _ S1 Hm) as Hf.
    rewrite showTables_run in Hf. injection Hf as <- <-. simpl. split; [done |].
    assert (∃ rest, requests w4
                    = (requests w ++ [(next_id w, ShowTables (client props))])
                      ++ rest) as [rest ->].
    { rewrite Hr4, Hr3.
      destruct (truthy (get q "fromTable")); memo_inv S2; simpl.
      - exists []. by rewrite app_nil_r.
      - eexists [_]. done.
      - exists []. by rewrite app_nil_r.
      - exists []. by rewrite app_nil_r. }
    apply elem_of_app. left. apply elem_of_app. right.
    by apply list_elem_of_singleton.
  - intros Hm. pose proof (memo_step_miss _ _ _ _ _ _ _ S2 Hm) as Hf.
    destruct (truthy (get q "fromTable"));
      [rewrite queryColumnSchemaOfTable_run in Hf
      | rewrite Promise_resolve_run in Hf];
      injection Hf as <- <-; simpl; lia.
Qed.

End Render.

(** ** Handlers *)

Lemma changeQueryByKey_run (r : Rendered) (key : string) (v : jsval)
    (w : world) (q : object) :
  heap w !! r_query r = Some q →
  let l := fresh (dom (heap w)) in
  changeQueryByKey r key v w
  = Some (tt, World (<[l := spread_with q key v]> (heap w)) (next_id w)
                    (requests w) (emitted w ++ [l])).
Proof.
  intros Hq l. unfold changeQueryByKey, bind, deref. by rewrite Hq.
Qed.

Lemma fresh_location (w : world) : heap w !! fresh (dom (heap w)) = None.
Proof. apply not_elem_of_dom, is_fresh. Qed.

Lemma handed_over_snoc (w w' : world) (l : nat) :
  emitted w' = emitted w ++ [l] → handed_over w w' = [l].
Proof. unfold handed_over. intros ->. by rewrite drop_app_length. Qed.

Lemma handed_over_nothing (w : world) : handed_over w w = [].
Proof. unfold handed_over. by rewrite drop_all. Qed.

Lemma changeQueryByKey_inv (r : Rendered) (key : string) (v : jsval)
    (w w' : world) :
  changeQueryByKey r key v w = Some (tt, w') →
  ∃ q, heap w !! r_query r = Some q ∧
       heap w' = <[fresh (dom (heap w)) := spread_with q key v]> (heap w) ∧
       emitted w' = emitted w ++ [fresh (dom (heap w))].
Proof.
  destruct (heap w !! r_query r) as [q|] eqn:Hq.
  - rewrite (changeQueryByKey_run _ _ _ _ _ Hq). intros [= <-]. by exists q.
  - unfold changeQueryByKey, bind, deref. by rewrite Hq.
Qed.

(** A handler that returns has written no object that existed: it has
    handed the host at most one object, a new one. *)
Lemma choose_keeps_objects (r : Rendered) (p : picker) (select : SelectableValue)
    (w w' : world) :
  choose r p select w = Some (tt, w') →
  (∀ l o, heap w !! l = Some o → heap w' !! l = Some o) ∧
  (handed_over w w' = [] ∨
   ∃ l, handed_over w w' = [l] ∧ heap w !! l = None ∧ is_Some (heap w' !! l)).
Proof.
  assert (∀ key v, changeQueryByKey r key v w = Some (tt, w') →
    (∀ l o, heap w !! l = Some o → heap w' !! l = Some o) ∧
    (handed_over w w' = [] ∨
     ∃ l, handed_over w w' = [l] ∧ heap w !! l = None ∧ is_Some (heap w' !! l)))
    as Hchange.
  { intros key v Hrun.
    destruct (changeQueryByKey_inv _ _ _ _ _ Hrun) as (q & Hq & Hh & He).
    pose proof (fresh_location w) as Hfresh. split.
    - intros l o Hl. rewrite Hh, lookup_insert_ne; [done |].
      intros <-. congruence.
    - right. exists (fresh (dom (heap w))). split_and!.
      + by apply handed_over_snoc.
      + done.
      + rewrite Hh, lookup_insert_eq. by eexists. }
  destruct p as [| | idx]; simpl.
  - apply Hchange.
  - apply Hchange.
  - unfold choose_in_slot.
    destruct (segments (r_selectedColumns r) !! idx) as [[| column] |]; simpl.
    + unfold handleAddColumn. apply Hchange.
    + intros [= <-]. split; [done |]. left. apply handed_over_nothing.
    + done.
Qed.

(** ** The rendered segments *)

Lemma segments_column (sel : list entry) (i : nat) (column : entry) :
  sel !! i = Some column →
  segments (sel ++ [Some sentinel]) !! i = Some (SegmentAsync column).
Proof.
  intros Hi. unfold segments. rewrite list_lookup_imap.
  rewrite (lookup_app_l_Some _ _ _ _ Hi). simpl.
  apply lookup_lt_Some in Hi. rewrite length_app. simpl.
  destruct (Nat.eqb_spec i (length sel + 1 - 1)); [lia | done].
Qed.

Lemma segments_add (sel : list entry) :
  segments (sel ++ [Some sentinel]) !! length sel = Some AddSegment.
Proof.
  unfold segments. rewrite list_lookup_imap.
  rewrite lookup_app_r by lia. rewrite Nat.sub_diag. simpl.
  rewrite length_app. simpl.
  destruct (Nat.eqb_spec (length sel) (length sel + 1 - 1)); [done | lia].
Qed.

(** ** Option lists *)

(** The filter of line 76, spelled out: the columns whose name is neither
    selected nor the sentinel. *)
Lemma unselectedColumns_sentinel (sel : list entry) (columns : list ColumnSchema) :
  unselectedColumns (sel ++ [Some sentinel]) columns
  = filter (λ column, (Some (name column) ∉ sel) ∧ (name column ≠ sentinel))
           columns.
Proof.
  unfold unselectedColumns. apply list_filter_iff. intros column.
  assert (Some (name column) = Some sentinel ↔ name column = sentinel) as Hinj
    by (split; congruence).
  destruct (includes (sel ++ [Some sentinel]) (name column)) eqn:E; simpl.
  - apply includes_true in E. apply elem_of_app in E.
    rewrite list_elem_of_singleton in E. split; [done | tauto].
  - apply includes_false in E. rewrite elem_of_app in E.
    rewrite list_elem_of_singleton in E. split; [tauto | done].
Qed.

(** * The specification, statement by statement *)

(** C5: for every query [q], key and value, [changeQueryByKey] hands the host
    a newly allocated object that holds the value under the key and agrees
    with [q] on every other property; no object that existed before, [q]
    included, is modified; and writing back the value that [q] already reads
    under the key gives an object that reads like [q] under every key (and
    is [q], property for property, when the key is a property of [q]). *)
Theorem changeQueryByKey_sets_one_field (r : Rendered) (key : string)
    (v : jsval) (w : world) (q : object) :
  heap w !! r_query r = Some q →
  ∃ l w' q',
    changeQueryByKey r key v w = Some (tt, w') ∧
    handed_over w w' = [l] ∧
    heap w !! l = None ∧
    heap w' !! l = Some q' ∧
    get q' key = v ∧
    (∀ k, k ≠ key → q' !! k = q !! k) ∧
    (∀ l0 o, heap w !! l0 = Some o → heap w' !! l0 = Some o) ∧
    (v = get q key →
     (∀ k, get q' k = get q k) ∧ (is_Some (q !! key) → q' = q)).
Proof.
  intros Hq. pose proof (fresh_location w) as Hfresh.
  set (l := fresh (dom (heap w))) in *.
  exists l, (World (<[l := spread_with q key v]> (heap w)) (next_id w)
                   (requests w) (emitted w ++ [l])), (spread_with q key v).
  split_and!.
  - by apply changeQueryByKey_run.
  - by apply handed_over_snoc.
  - done.
  - simpl. by rewrite lookup_insert_eq.
  - apply get_spread_with_eq.
  - intros k Hk. unfold spread_with. by rewrite lookup_insert_ne.
  - intros l0 o Hl0. simpl. rewrite lookup_insert_ne; [done |].
    intros <-. congruence.
  - intros ->. split.
    + intros k. destruct (decide (key = k)) as [<- | Hne].
      * apply get_spread_with_eq.
      * by apply get_spread_with_ne.
    + intros [x Hx]. unfold spread_with, get. rewrite Hx. simpl.
      by apply insert_id.
Qed.

Section Specification.

Context (defaultQuery : object) (mapGreptimeTypeToGrafana : string → FieldType).

Local Abbreviation VisualQueryEditor :=
  (VisualQueryEditor defaultQuery mapGreptimeTypeToGrafana).
Local Abbreviation cells_ok := (hooks_ok mapGreptimeTypeToGrafana).

(** After a render the host's reference leads to the defaulted object, and
    the selection stored there is the one the segments show. *)
Lemma render_selection (props : Props) (h h' : Hooks) (w w' : world)
    (o : object) (sel : list entry) (r : Rendered) :
  heap w !! query props = Some o →
  nullish_or_array (get (defaults_object o defaultQuery) "selectedColumns")
    = Some sel →
  VisualQueryEditor props h w = Some (r, h', w') →
  heap w' !! r_query r = Some (defaults_object o defaultQuery) ∧
  selection w' (query props) = Some sel.
Proof.
  intros Ho Hsel Hr.
  destruct (render_frame _ _ _ _ _ _ _ _ _ _ Ho Hsel Hr)
    as (Hq & _ & _ & Hh & _).
  unfold selection. rewrite Hq, Hh, lookup_insert_eq. done.
Qed.

(** C1 (as the code has it): for every query and every index [i] of an
    entry of [selectedColumns], slot [i] is a column segment, and choosing
    any name in its picker leaves the world as it was: [onChange] is not
    called and no object is written, so the host keeps the selection it
    had, entry by entry and in length. *)
Theorem reselect_commits_nothing (props : Props) (h : Hooks) (w : world)
    (o : object) (sel : list entry) (i : nat) (column : entry) :
  heap w !! query props = Some o →
  nullish_or_array (get (defaults_object o defaultQuery) "selectedColumns")
    = Some sel →
  sel !! i = Some column →
  ∃ r h' w',
    VisualQueryEditor props h w = Some (r, h', w') ∧
    segments (r_selectedColumns r) !! i = Some (SegmentAsync column) ∧
    ∀ select,
      choose_in_slot r i select w' = Some (tt, w') ∧
      handed_over w' w' = [] ∧
      selection w' (host_query (query props) w' w') = Some sel.
Proof.
  intros Ho Hsel Hi.
  destruct (render_total defaultQuery mapGreptimeTypeToGrafana props h w o sel
              Ho Hsel) as (r & h' & w' & Hr).
  destruct (render_frame _ _ _ _ _ _ _ _ _ _ Ho Hsel Hr)
    as (_ & _ & Hs & _ & _).
  destruct (render_selection _ _ _ _ _ _ _ _ Ho Hsel Hr) as [_ Hhost].
  exists r, h', w'. rewrite Hs. split; [done |].
  split; [by apply segments_column |].
  intros select. unfold choose_in_slot, host_query.
  rewrite Hs, (segments_column _ _ _ Hi), handed_over_nothing. done.
Qed.

(** A query object that holds a value for every property of [defaultQuery]
    is left as it is by the default filling. *)
Lemma defaults_object_complete (o : object) :
  (∀ k d, defaultQuery !! k = Some d → get o k ≠ VUndefined) →
  defaults_object o defaultQuery = o.
Proof.
  intros Hall. apply map_eq. intros k. rewrite lookup_defaults_object.
  destruct (defaultQuery !! k) as [d|] eqn:Hd; simpl; [| done].
  specialize (Hall _ _ Hd). unfold get in Hall.
  destruct (o !! k) as [v|]; simpl in *; [| done].
  by case_decide.
Qed.

(** C6 (where the code departs from it): when [defaultQuery] has a value
    for a property that reads [undefined] in the host's query object, a
    render calls no [onChange] and yet the host's own object has changed:
    it now holds the default under that property. *)
Theorem render_fills_defaults_in_place (props : Props) (h : Hooks) (w : world)
    (o : object) (sel : list entry) (k : string) (d : jsval) :
  heap w !! query props = Some o →
  nullish_or_array (get (defaults_object o defaultQuery) "selectedColumns")
    = Some sel →
  defaultQuery !! k = Some d →
  get o k = VUndefined →
  d ≠ VUndefined →
  ∃ r h' w' o',
    VisualQueryEditor props h w = Some (r, h', w') ∧
    handed_over w w' = [] ∧
    heap w' !! query props = Some o' ∧
    get o' k = d ∧
    o' ≠ o.
Proof.
  intros Ho Hsel Hk Hu Hd.
  destruct (render_total defaultQuery mapGreptimeTypeToGrafana props h w o sel
              Ho Hsel) as (r & h' & w' & Hr).
  destruct (render_frame _ _ _ _ _ _ _ _ _ _ Ho Hsel Hr)
    as (_ & _ & _ & Hh & He).
  assert (get (defaults_object o defaultQuery) k = d) as Hget.
  { rewrite get_defaults_object_unset by done. unfold get. by rewrite Hk. }
  exists r, h', w', (defaults_object o defaultQuery). split_and!; try done.
  - unfold handed_over. rewrite He. apply drop_all.
  - by rewrite Hh, lookup_insert_eq.
  - intros Heq. rewrite Heq in Hget. congruence.
Qed.

(** *** Option lists *)

(** What the three column pickers load, in terms of the state of the column
    schema promise. *)
Lemma render_options (props : Props) (h h' : Hooks) (w w' : world)
    (o : object) (sel : list entry) (r : Rendered) (b : backend) :
  heap w !! query props = Some o →
  nullish_or_array (get (defaults_object o defaultQuery) "selectedColumns")
    = Some sel →
  cells_ok (next_id w) h →
  VisualQueryEditor props h w = Some (r, h', w') →
  loadTimeColumns r b
  = outcome_map (timeColumns mapGreptimeTypeToGrafana)
                (settle (getColumnSchema r) b) ∧
  handleLoadUnselectedColumns r b
  = outcome_map (λ columns, (λ column, toOption (name column))
                            <$> unselectedColumns (sel ++ [Some sentinel]) columns)
                (settle (getColumnSchema r) b) ∧
  (truthy (get (defaults_object o defaultQuery) "fromTable") = false →
   settle (getColumnSchema r) b = Fulfilled []).
Proof.
  intros Ho Hsel Hok Hr.
  destruct (render_spec _ _ _ _ _ _ _ _ _ _ Ho Hsel Hok Hr)
    as (_ & _ & _ & _ & _ & _ & Hc & Ht & Hu).
  unfold loadTimeColumns, handleLoadUnselectedColumns.
  rewrite Ht, Hu. split_and!.
  - done.
  - by destruct (settle (getColumnSchema r) b).
  - intros Hf. by rewrite Hc, Hf.
Qed.

(** When no column carries the sentinel's name, the add segment offers the
    columns that are not selected. *)
Lemma unselectedColumns_plain (sel : list entry) (columns : list ColumnSchema) :
  (∀ column, column ∈ columns → name column ≠ sentinel) →
  unselectedColumns (sel ++ [Some sentinel]) columns
  = filter (λ column, Some (name column) ∉ sel) columns.
Proof.
  intros Hplain. rewrite unselectedColumns_sentinel.
  induction columns as [| c columns IH]; [done |].
  rewrite !filter_cons.
  assert (name c ≠ sentinel) by (apply Hplain; left).
  rewrite IH by (intros; apply Hplain; by right).
  destruct (decide (Some (name c) ∉ sel)).
  - rewrite decide_True by done. done.
  - rewrite decide_False by tauto. done.
Qed.

(** C9: for every resolved column list, the empty one included, the time
    column picker loads the options of the columns whose data type maps to
    [FieldType.time], in the order of the list, and nothing else. *)
Theorem time_column_options_exact (props : Props) (h : Hooks) (w : world)
    (o : object) (sel : list entry) :
  heap w !! query props = Some o →
  nullish_or_array (get (defaults_object o defaultQuery) "selectedColumns")
    = Some sel →
  cells_ok (next_id w) h →
  ∃ r h' w',
    VisualQueryEditor props h w = Some (r, h', w') ∧
    ∀ b columns,
      settle (getColumnSchema r) b = Fulfilled columns →
      ∃ opts,
        loadTimeColumns r b = Fulfilled opts ∧
        opts = (λ column, toOption (name column))
               <$> filter (λ column, mapGreptimeTypeToGrafana (data_type column)
                                     = FieldType_time) columns ∧
        (∀ opt, opt ∈ opts ↔
                ∃ column, column ∈ columns ∧
                          mapGreptimeTypeToGrafana (data_type column)
                          = FieldType_time ∧
                          opt = toOption (name column)) ∧
        (columns = [] → opts = []).
Proof.
  intros Ho Hsel Hok.
  destruct (render_total defaultQuery mapGreptimeTypeToGrafana props h w o sel
              Ho Hsel) as (r & h' & w' & Hr).
  exists r, h', w'. split; [done |]. intros b columns Hcols.
  destruct (render_options _ _ _ _ _ _ _ _ b Ho Hsel Hok Hr) as (Ht & _ & _).
  rewrite Hcols in Ht. simpl in Ht.
  assert (timeColumns mapGreptimeTypeToGrafana columns
          = (λ column, toOption (name column))
            <$> filter (λ column, mapGreptimeTypeToGrafana (data_type column)
                                  = FieldType_time) columns) as Heq.
  { unfold timeColumns. f_equal. apply list_filter_iff. intros column.
    unfold is_time_column. apply bool_decide_spec. }
  eexists. split; [exact Ht |]. split; [exact Heq |]. rewrite Heq. split.
  - intros opt. rewrite list_elem_of_fmap. split.
    + intros (column & -> & Hin). apply list_elem_of_filter in Hin as [? ?].
      by exists column.
    + intros (column & Hin & Htime & ->). exists column. split; [done |].
      by apply list_elem_of_filter.
  - by intros ->.
Qed.

(** C10: for every resolved column list, a column named like the sentinel
    is offered neither by the add segment nor in the tail of a column
    segment's options, whatever the selection: the options are those of the
    columns whose name is neither selected nor the sentinel. *)
Theorem sentinel_named_column_never_offered (props : Props) (h : Hooks)
    (w : world) (o : object) (sel : list entry) :
  heap w !! query props = Some o →
  nullish_or_array (get (defaults_object o defaultQuery) "selectedColumns")
    = Some sel →
  cells_ok (next_id w) h →
  ∃ r h' w',
    VisualQueryEditor props h w = Some (r, h', w') ∧
    ∀ b columns,
      settle (getColumnSchema r) b = Fulfilled columns →
      ∃ opts,
        handleLoadUnselectedColumns r b = Fulfilled opts ∧
        (∀ selfVal, handleLoadReselectColumns r selfVal b
                    = Fulfilled (toOption_entry selfVal :: opts)) ∧
        opts = (λ column, toOption (name column))
               <$> filter (λ column, (Some (name column) ∉ sel)
                                     ∧ (name column ≠ sentinel)) columns ∧
        (∀ column, column ∈ columns → name column = sentinel →
                   toOption (name column) ∉ opts).
Proof.
  intros Ho Hsel Hok.
  destruct (render_total defaultQuery mapGreptimeTypeToGrafana props h w o sel
              Ho Hsel) as (r & h' & w' & Hr).
  exists r, h', w'. split; [done |]. intros b columns Hcols.
  destruct (render_options _ _ _ _ _ _ _ _ b Ho Hsel Hok Hr) as (_ & Hu & _).
  rewrite Hcols in Hu. simpl in Hu. rewrite unselectedColumns_sentinel in Hu.
  eexists. split; [exact Hu |]. split_and!.
  - intros selfVal. unfold handleLoadReselectColumns. by rewrite Hu.
  - done.
  - intros column _ Hname Hin. apply list_elem_of_fmap in Hin
      as (column' & Heq & Hin').
    apply list_elem_of_filter in Hin' as [[_ Hne] _].
    injection Heq as Heq. congruence.
Qed.

(** C4: in every render, for every resolved column list and every slot
    that shows a selected column, the picker of the slot loads the option
    of the column it shows, followed by exactly what the add segment loads;
    the same holds of [handleLoadReselectColumns] for any value. *)
Theorem reselect_options_prepend_current (props : Props) (h : Hooks)
    (w : world) (o : object) (sel : list entry) :
  heap w !! query props = Some o →
  nullish_or_array (get (defaults_object o defaultQuery) "selectedColumns")
    = Some sel →
  cells_ok (next_id w) h →
  ∃ r h' w',
    VisualQueryEditor props h w = Some (r, h', w') ∧
    ∀ b columns,
      settle (getColumnSchema r) b = Fulfilled columns →
      ∃ opts,
        handleLoadUnselectedColumns r b = Fulfilled opts ∧
        (∀ selfVal, handleLoadReselectColumns r selfVal b
                    = Fulfilled (toOption_entry selfVal :: opts)) ∧
        (∀ i column, sel !! i = Some column →
           ∃ s, segments (r_selectedColumns r) !! i = Some s ∧
                segment_loadOptions r s b = Fulfilled (toOption_entry column :: opts)).
Proof.
  intros Ho Hsel Hok.
  destruct (render_total defaultQuery mapGreptimeTypeToGrafana props h w o sel
              Ho Hsel) as (r & h' & w' & Hr).
  destruct (render_frame _ _ _ _ _ _ _ _ _ _ Ho Hsel Hr)
    as (_ & _ & Hs & _ & _).
  exists r, h', w'. split; [done |]. intros b columns Hcols.
  destruct (render_options _ _ _ _ _ _ _ _ b Ho Hsel Hok Hr) as (_ & Hu & _).
  rewrite Hcols in Hu. simpl in Hu.
  eexists. split; [exact Hu |].
  assert (∀ selfVal, handleLoadReselectColumns r selfVal b
                     = Fulfilled (toOption_entry selfVal ::
                         ((λ column, toOption (name column))
                          <$> unselectedColumns (sel ++ [Some sentinel]) columns)))
    as Hre.
  { intros selfVal. unfold handleLoadReselectColumns. by rewrite Hu. }
  split; [done |].
  intros i column Hi. exists (SegmentAsync column). rewrite Hs.
  split; [by apply segments_column | apply Hre].
Qed.

(** C3: for every query, the last slot is the add segment, and for every
    name the add segment offers there - each is a new name, not in
    [selectedColumns] - choosing it hands the host exactly one new object
    whose [selectedColumns] is the previous selection followed by the new
    name, every other property being as in the query.  The new name is not
    the sentinel and not a repetition: a selection free of duplicates stays
    free of duplicates, and a selection free of the sentinel string stays
    free of it. *)
Theorem append_of_offered_name (props : Props) (h : Hooks) (w : world)
    (o : object) (sel : list entry) :
  heap w !! query props = Some o →
  nullish_or_array (get (defaults_object o defaultQuery) "selectedColumns")
    = Some sel →
  cells_ok (next_id w) h →
  ∃ r h' w1,
    VisualQueryEditor props h w = Some (r, h', w1) ∧
    segments (r_selectedColumns r) !! length sel = Some AddSegment ∧
    ∀ b opts select,
      segment_loadOptions r AddSegment b = Fulfilled opts →
      select ∈ opts →
      ∃ v w2 l q',
        value select = Some v ∧
        (Some v ∉ sel) ∧
        v ≠ sentinel ∧
        choose_in_slot r (length sel) select w1 = Some (tt, w2) ∧
        handed_over w1 w2 = [l] ∧
        heap w2 !! l = Some q' ∧
        get q' "selectedColumns" = VArray (sel ++ [Some v]) ∧
        (∀ k, k ≠ "selectedColumns" →
              q' !! k = defaults_object o defaultQuery !! k) ∧
        (NoDup sel → NoDup (sel ++ [Some v])) ∧
        (Some sentinel ∉ sel → Some sentinel ∉ sel ++ [Some v]).
Proof.
  intros Ho Hsel Hok.
  destruct (render_total defaultQuery mapGreptimeTypeToGrafana props h w o sel
              Ho Hsel) as (r & h' & w1 & Hr).
  destruct (render_frame _ _ _ _ _ _ _ _ _ _ Ho Hsel Hr)
    as (_ & _ & Hs & _ & _).
  destruct (render_selection _ _ _ _ _ _ _ _ Ho Hsel Hr) as [Hq _].
  exists r, h', w1. split; [done |].
  split; [rewrite Hs; apply segments_add |].
  intros b opts select Hopts Hin. simpl in Hopts.
  destruct (render_options _ _ _ _ _ _ _ _ b Ho Hsel Hok Hr) as (_ & Hu & _).
  rewrite Hu in Hopts.
  destruct (settle (getColumnSchema r) b) as [| columns |]; try done.
  simpl in Hopts. injection Hopts as <-.
  rewrite unselectedColumns_sentinel in Hin.
  apply list_elem_of_fmap in Hin as (column & -> & Hin).
  apply list_elem_of_filter in Hin as [[Hnew Hne] _].
  pose proof (changeQueryByKey_run r "selectedColumns"
                (VArray (sel ++ [Some (name column)])) w1 _ Hq) as Hrun.
  simpl in Hrun. set (l := fresh (dom (heap w1))) in *.
  exists (name column),
    (World (<[l := spread_with (defaults_object o defaultQuery)
                               "selectedColumns"
                               (VArray (sel ++ [Some (name column)]))]>
              (heap w1))
           (next_id w1) (requests w1) (emitted w1 ++ [l])),
    l, (spread_with (defaults_object o defaultQuery) "selectedColumns"
                    (VArray (sel ++ [Some (name column)]))).
  split_and!; try done.
  - unfold choose_in_slot. rewrite Hs, segments_add. simpl.
    unfold handleAddColumn. simpl. rewrite Hs, slice_0_m1_snoc. exact Hrun.
  - by apply handed_over_snoc.
  - simpl. by rewrite lookup_insert_eq.
  - apply get_spread_with_eq.
  - intros k Hk. unfold spread_with. by rewrite lookup_insert_ne.
  - intros Hnd. apply NoDup_app. split_and!; [done | | apply NoDup_singleton].
    intros x Hx Hxv. apply list_elem_of_singleton in Hxv. by subst x.
  - intros Hsent Hin. apply elem_of_app in Hin as [Hin | Hin]; [done |].
    apply list_elem_of_singleton in Hin. congruence.
Qed.

(** C7: when no table is chosen ([fromTable] reads [undefined], or is
    otherwise falsy), the render goes through and the column schema, the
    time column options and the unselected column options are all the
    empty list, whatever the backend answers. *)
Theorem no_table_no_column_options (props : Props) (h : Hooks) (w : world)
    (o : object) (sel : list entry) :
  heap w !! query props = Some o →
  nullish_or_array (get (defaults_object o defaultQuery) "selectedColumns")
    = Some sel →
  cells_ok (next_id w) h →
  truthy (get (defaults_object o defaultQuery) "fromTable") = false →
  ∃ r h' w',
    VisualQueryEditor props h w = Some (r, h', w') ∧
    ∀ b,
      settle (getColumnSchema r) b = Fulfilled [] ∧
      loadTimeColumns r b = Fulfilled [] ∧
      handleLoadUnselectedColumns r b = Fulfilled [].
Proof.
  intros Ho Hsel Hok Hf.
  destruct (render_total defaultQuery mapGreptimeTypeToGrafana props h w o sel
              Ho Hsel) as (r & h' & w' & Hr).
  exists r, h', w'. split; [done |]. intros b.
  destruct (render_options _ _ _ _ _ _ _ _ b Ho Hsel Hok Hr) as (Ht & Hu & Hc).
  rewrite Ht, Hu, (Hc Hf). done.
Qed.

(** *** The memo cells across renders *)

Lemma hooks_ok_mono (n m : nat) (h : Hooks) :
  n ≤ m → cells_ok n h → cells_ok m h.
Proof.
  intros Hnm (H1 & H2 & H3 & H4). unfold hooks_ok. split_and!.
  - intros c p Hc. destruct (H1 _ _ Hc). split; [lia | done].
  - intros c t p Hc. destruct (H2 _ _ _ Hc). split; [lia | done].
  - intros d p Hc. destruct (H3 _ _ Hc). split; [lia | done].
  - intros d a p Hc. specialize (H4 _ _ _ Hc). lia.
Qed.

Lemma mount_ok (n : nat) : cells_ok n mount.
Proof. unfold hooks_ok. by split_and!. Qed.

(** C8: take any render and the render that follows it, whatever happened
    to the world in between.  If the client is the same object, the second
    render returns the very promise of the table list that the first one
    returned; if moreover [fromTable] is the same, it returns the very
    promise of the column schema and sends no request.  If the client
    differs, the table list promise is a new one and a new request was
    sent; if the client or [fromTable] differs, the column schema promise is
    a new one.  None of this depends on the state of the promises: one that
    was rejected is returned again, rejected, as long as its key stays. *)
Theorem schema_promises_memoized (props1 props2 : Props) (h h1 : Hooks)
    (w w1 w2 : world) (o1 o2 : object) (sel1 sel2 : list entry)
    (r1 : Rendered) :
  heap w !! query props1 = Some o1 →
  nullish_or_array (get (defaults_object o1 defaultQuery) "selectedColumns")
    = Some sel1 →
  cells_ok (next_id w) h →
  VisualQueryEditor props1 h w = Some (r1, h1, w1) →
  next_id w1 ≤ next_id w2 →
  heap w2 !! query props2 = Some o2 →
  nullish_or_array (get (defaults_object o2 defaultQuery) "selectedColumns")
    = Some sel2 →
  ∃ r2 h2 w2',
    VisualQueryEditor props2 h1 w2 = Some (r2, h2, w2') ∧
    (client props2 = client props1 → getAllTables r2 = getAllTables r1) ∧
    (client props2 = client props1 → r_fromTable r2 = r_fromTable r1 →
     getColumnSchema r2 = getColumnSchema r1 ∧ requests w2' = requests w2) ∧
    (client props2 ≠ client props1 →
     pid (getAllTables r2) ≠ pid (getAllTables r1) ∧
     (pid (getAllTables r2), ShowTables (client props2)) ∈ requests w2') ∧
    (client props2 ≠ client props1 ∨ r_fromTable r2 ≠ r_fromTable r1 →
     pid (getColumnSchema r2) ≠ pid (getColumnSchema r1)) ∧
    cell_getAllTables h2 = Some (client props2, getAllTables r2) ∧
    cell_getColumnSchema h2
    = Some ((client props2, r_fromTable r2), getColumnSchema r2) ∧
    (∀ b reason,
       client props2 = client props1 →
       settle (getAllTables r1) b = Rejected reason →
       settle (getAllTables r2) b = Rejected reason) ∧
    (∀ b reason,
       client props2 = client props1 → r_fromTable r2 = r_fromTable r1 →
       settle (getColumnSchema r1) b = Rejected reason →
       settle (getColumnSchema r2) b = Rejected reason ∧
       requests w2' = requests w2).
Proof.
  intros Ho1 Hsel1 Hok Hr1 Hnext Ho2 Hsel2.
  destruct (render_spec _ _ _ _ _ _ _ _ _ _ Ho1 Hsel1 Hok Hr1)
    as (_ & Hok1 & Hc1 & Hc2 & Hp1 & Hp2 & _).
  destruct (render_frame _ _ _ _ _ _ _ _ _ _ Ho1 Hsel1 Hr1)
    as (_ & Hft1 & _).
  apply (hooks_ok_mono _ _ _ Hnext) in Hok1.
  destruct (render_total defaultQuery mapGreptimeTypeToGrafana props2 h1 w2 o2
              sel2 Ho2 Hsel2) as (r2 & h2 & w2' & Hr2).
  destruct (render_frame _ _ _ _ _ _ _ _ _ _ Ho2 Hsel2 Hr2)
    as (_ & Hft2 & _).
  destruct (render_spec _ _ _ _ _ _ _ _ _ _ Ho2 Hsel2 Hok1 Hr2)
    as (_ & _ & Hc1' & Hc2' & _).
  rewrite <- Hft2 in Hc2'.
  destruct (render_memo _ _ _ _ _ _ _ _ _ _ Ho2 Hsel2 Hok1 Hr2)
    as (Hhit1 & Hhit2 & Hquiet & Hmiss1 & Hmiss2).
  rewrite <- Hft2 in Hhit2, Hquiet, Hmiss2. rewrite <- Hft1 in Hc2.
  assert (client props2 = client props1 → getAllTables r2 = getAllTables r1)
    as Hsame1.
  { intros Hc. apply Hhit1. by rewrite Hc. }
  assert (client props2 = client props1 → r_fromTable r2 = r_fromTable r1 →
          getColumnSchema r2 = getColumnSchema r1 ∧ requests w2' = requests w2)
    as Hsame2.
  { intros Hc Hft. split.
    - apply Hhit2. by rewrite Hc, Hft.
    - apply (Hquiet (getAllTables r1) (getColumnSchema r1)).
      + by rewrite Hc.
      + by rewrite Hc, Hft. }
  exists r2, h2, w2'. split_and!; try done.
  - intros Hc. destruct Hmiss1 as [Hge Hreq].
    { intros p Hp. rewrite Hc1 in Hp. by injection Hp as Hp _. }
    split; [lia | done].
  - intros Hne.
    assert (next_id w2 ≤ pid (getColumnSchema r2)); [| lia].
    apply Hmiss2. intros p Hp. rewrite Hc2 in Hp. injection Hp as Hp Hp' _.
    destruct Hne; congruence.
  - intros b reason Hc Hrej. by rewrite (Hsame1 Hc).
  - intros b reason Hc Hft Hrej. destruct (Hsame2 Hc Hft) as [-> ?]. done.
Qed.

End Specification.

(** * The running example *)

Module ScenarioFacts.
Import Scenario.

(** Table [metrics] with columns [ts] (time) and [cpu] (float), nothing
    selected: the time column picker offers [ts], the add segment offers
    [ts] and [cpu]. *)
Example time_options_of_metrics :
  offered (query_of "metrics" []) loadTimeColumns (answers [ts; cpu])
  = Some (Fulfilled [toOption "ts"]).
Proof. reflexivity. Qed.

Example add_options_of_metrics :
  offered (query_of "metrics" []) handleLoadUnselectedColumns (answers [ts; cpu])
  = Some (Fulfilled [toOption "ts"; toOption "cpu"]).
Proof. reflexivity. Qed.

(** [cpu] selected, slot 0 reopened: the current value first, then what is
    left. *)
Example reselect_options_of_cpu :
  offered (query_of "metrics" ["cpu"]) (λ r, segment_loadOptions r (SegmentAsync (Some "cpu")))
          (answers [ts; cpu])
  = Some (Fulfilled [toOption "cpu"; toOption "ts"]).
Proof. reflexivity. Qed.

(** The closures of the first render. *)
Example closures_of_first_render :
  match first_render (query_of "metrics" ["cpu"]) with
  | Some (r, _, _) => r = closures
  | None => False
  end.
Proof. reflexivity. Qed.

(** [ts] appended to [cpu]: one query handed over, holding both. *)
Example append_ts_to_cpu :
  after_choice (query_of "metrics" ["cpu"]) 1 (toOption "ts")
  = Some ([2], Some [Some "cpu"; Some "ts"]).
Proof. reflexivity. Qed.

(** No table chosen: empty option lists even when the backend fails. *)
Example no_table_chosen :
  offered new_query handleLoadUnselectedColumns failing = Some (Fulfilled []) ∧
  offered new_query loadTimeColumns failing = Some (Fulfilled []).
Proof. split; reflexivity. Qed.

(** A failing backend shows in the pickers as a rejected promise. *)
Example failing_backend :
  offered (query_of "metrics" []) loadTimeColumns failing
  = Some (Rejected "unavailable").
Proof. reflexivity. Qed.

End ScenarioFacts.

(** ** Where the code and the specification part *)

(** C1 (as stated, at a concrete input): with [cpu] selected, the user
    chooses [ts] in the picker of slot 0.  Nothing is handed to the host,
    and the selection the host holds is still [cpu]: entry 0 has not been
    swapped for [ts]. *)
Lemma replace_does_not_swap_entry :
  Scenario.after_choice (Scenario.query_of "metrics" ["cpu"]) 0 (toOption "ts")
  = Some ([], Some [Some "cpu"]) ∧
  Some [Some "cpu"] ≠ Some (<[0 := Some "ts"]> [Some "cpu"]).
Proof. split; [reflexivity | discriminate]. Qed.

(** C2 (the code at the failing input): the table has a column named
    [foobar] and nothing is selected, so [foobar] is not in the selection;
    the add segment offers [cpu] only. *)
Lemma add_segment_drops_column_named_foobar :
(Some (name Scenario.foobar) ∉ ([] : list entry)) ∧
  Scenario.offered (Scenario.query_of "metrics" []) handleLoadUnselectedColumns
                   (Scenario.answers [Scenario.foobar; Scenario.cpu])
  = Some (Fulfilled [toOption "cpu"]).
Proof. split; [apply not_elem_of_nil | reflexivity]. Qed.

(** ** The statements at the running example *)

Lemma changeQueryByKey_sets_one_field_witness :
  ∃ l w' q',
    changeQueryByKey Scenario.closures "timeColumn" (VString "ts")
      (Scenario.host (Scenario.query_of "metrics" ["cpu"])) = Some (tt, w') ∧
    handed_over (Scenario.host (Scenario.query_of "metrics" ["cpu"])) w' = [l] ∧
    heap (Scenario.host (Scenario.query_of "metrics" ["cpu"])) !! l = None ∧
    heap w' !! l = Some q' ∧
    get q' "timeColumn" = VString "ts" ∧
    (∀ k, k ≠ "timeColumn" →
          q' !! k = Scenario.query_of "metrics" ["cpu"] !! k) ∧
    (∀ l0 o, heap (Scenario.host (Scenario.query_of "metrics" ["cpu"])) !! l0
             = Some o →
             heap w' !! l0 = Some o) ∧
    (VString "ts" = get (Scenario.query_of "metrics" ["cpu"]) "timeColumn" →
     (∀ k, get q' k = get (Scenario.query_of "metrics" ["cpu"]) k) ∧
     (is_Some (Scenario.query_of "metrics" ["cpu"] !! "timeColumn") →
      q' = Scenario.query_of "metrics" ["cpu"])).
Proof.
  apply (changeQueryByKey_sets_one_field Scenario.closures "timeColumn"
           (VString "ts") (Scenario.host (Scenario.query_of "metrics" ["cpu"]))
           (Scenario.query_of "metrics" ["cpu"])).
  reflexivity.
Defined.

Lemma reselect_commits_nothing_witness :
  ∃ r h' w',
    Scenario.render Scenario.props mount
      (Scenario.host (Scenario.query_of "metrics" ["cpu"])) = Some (r, h', w') ∧
    segments (r_selectedColumns r) !! 0 = Some (SegmentAsync (Some "cpu")) ∧
    ∀ select,
      choose_in_slot r 0 select w' = Some (tt, w') ∧
      handed_over w' w' = [] ∧
      selection w' (host_query (query Scenario.props) w' w') = Some [Some "cpu"].
Proof.
  apply (reselect_commits_nothing Scenario.defaultQuery
           Scenario.mapGreptimeTypeToGrafana Scenario.props mount
           (Scenario.host (Scenario.query_of "metrics" ["cpu"]))
           (Scenario.query_of "metrics" ["cpu"]) [Some "cpu"] 0 (Some "cpu"));
    reflexivity.
Defined.

Lemma append_of_offered_name_witness :
  ∃ r h' w1,
    Scenario.render Scenario.props mount
      (Scenario.host (Scenario.query_of "metrics" ["cpu"])) = Some (r, h', w1) ∧
    segments (r_selectedColumns r) !! 1 = Some AddSegment ∧
    ∀ b opts select,
      segment_loadOptions r AddSegment b = Fulfilled opts →
      select ∈ opts →
      ∃ v w2 l q',
        value select = Some v ∧
        (Some v ∉ [Some "cpu"]) ∧
        v ≠ sentinel ∧
        choose_in_slot r 1 select w1 = Some (tt, w2) ∧
        handed_over w1 w2 = [l] ∧
        heap w2 !! l = Some q' ∧
        get q' "selectedColumns" = VArray ([Some "cpu"] ++ [Some v]) ∧
        (∀ k, k ≠ "selectedColumns" →
              q' !! k = defaults_object (Scenario.query_of "metrics" ["cpu"])
                                        Scenario.defaultQuery !! k) ∧
        (NoDup [Some "cpu"] → NoDup ([Some "cpu"] ++ [Some v])) ∧
        (Some sentinel ∉ [Some "cpu"] →
         Some sentinel ∉ [Some "cpu"] ++ [Some v]).
Proof.
  apply (append_of_offered_name Scenario.defaultQuery
           Scenario.mapGreptimeTypeToGrafana Scenario.props mount
           (Scenario.host (Scenario.query_of "metrics" ["cpu"]))
           (Scenario.query_of "metrics" ["cpu"]) [Some "cpu"]);
    [reflexivity | reflexivity | apply mount_ok].
Defined.

Lemma render_fills_defaults_in_place_witness :
  ∃ r h' w' o',
    Scenario.render Scenario.props mount (Scenario.host Scenario.new_query)
    = Some (r, h', w') ∧
    handed_over (Scenario.host Scenario.new_query) w' = [] ∧
    heap w' !! query Scenario.props = Some o' ∧
    get o' "queryText" = VString "" ∧
    o' ≠ Scenario.new_query.
Proof.
  apply (render_fills_defaults_in_place Scenario.defaultQuery
           Scenario.mapGreptimeTypeToGrafana Scenario.props mount
           (Scenario.host Scenario.new_query) Scenario.new_query []
           "queryText" (VString ""));
    try reflexivity; discriminate.
Defined.

Lemma time_column_options_exact_witness :
  ∃ r h' w',
    Scenario.render Scenario.props mount
      (Scenario.host (Scenario.query_of "metrics" [])) = Some (r, h', w') ∧
    ∀ b columns,
      settle (getColumnSchema r) b = Fulfilled columns →
      ∃ opts,
        loadTimeColumns r b = Fulfilled opts ∧
        opts = (λ column, toOption (name column))
               <$> filter (λ column,
                             Scenario.mapGreptimeTypeToGrafana (data_type column)
                             = FieldType_time) columns ∧
        (∀ opt, opt ∈ opts ↔
                ∃ column, column ∈ columns ∧
                          Scenario.mapGreptimeTypeToGrafana (data_type column)
                          = FieldType_time ∧
                          opt = toOption (name column)) ∧
        (columns = [] → opts = []).
Proof.
  apply (time_column_options_exact Scenario.defaultQuery
           Scenario.mapGreptimeTypeToGrafana Scenario.props mount
           (Scenario.host (Scenario.query_of "metrics" []))
           (Scenario.query_of "metrics" []) []);
    [reflexivity | reflexivity | apply mount_ok].
Defined.

Lemma sentinel_named_column_never_offered_witness :
  ∃ r h' w',
    Scenario.render Scenario.props mount
      (Scenario.host (Scenario.query_of "metrics" ["cpu"])) = Some (r, h', w') ∧
    ∀ b columns,
      settle (getColumnSchema r) b = Fulfilled columns →
      ∃ opts,
        handleLoadUnselectedColumns r b = Fulfilled opts ∧
        (∀ selfVal, handleLoadReselectColumns r selfVal b
                    = Fulfilled (toOption_entry selfVal :: opts)) ∧
        opts = (λ column, toOption (name column))
               <$> filter (λ column, (Some (name column) ∉ [Some "cpu"])
                                     ∧ (name column ≠ sentinel)) columns ∧
        (∀ column, column ∈ columns → name column = sentinel →
                   toOption (name column) ∉ opts).
Proof.
  apply (sentinel_named_column_never_offered Scenario.defaultQuery
           Scenario.mapGreptimeTypeToGrafana Scenario.props mount
           (Scenario.host (Scenario.query_of "metrics" ["cpu"]))
           (Scenario.query_of "metrics" ["cpu"]) [Some "cpu"]);
    [reflexivity | reflexivity | apply mount_ok].
Defined.

Lemma reselect_options_prepend_current_witness :
  ∃ r h' w',
    Scenario.render Scenario.props mount
      (Scenario.host (Scenario.query_of "metrics" ["cpu"])) = Some (r, h', w') ∧
    ∀ b columns,
      settle (getColumnSchema r) b = Fulfilled columns →
      ∃ opts,
        handleLoadUnselectedColumns r b = Fulfilled opts ∧
        (∀ selfVal, handleLoadReselectColumns r selfVal b
                    = Fulfilled (toOption_entry selfVal :: opts)) ∧
        (∀ i column, [Some "cpu"] !! i = Some column →
           ∃ s, segments (r_selectedColumns r) !! i = Some s ∧
                segment_loadOptions r s b = Fulfilled (toOption_entry column :: opts)).
Proof.
  apply (reselect_options_prepend_current Scenario.defaultQuery
           Scenario.mapGreptimeTypeToGrafana Scenario.props mount
           (Scenario.host (Scenario.query_of "metrics" ["cpu"]))
           (Scenario.query_of "metrics" ["cpu"]) [Some "cpu"]);
    [reflexivity | reflexivity | apply mount_ok].
Defined.

Lemma no_table_no_column_options_witness :
  ∃ r h' w',
    Scenario.render Scenario.props mount (Scenario.host Scenario.new_query)
    = Some (r, h', w') ∧
    ∀ b,
      settle (getColumnSchema r) b = Fulfilled [] ∧
      loadTimeColumns r b = Fulfilled [] ∧
      handleLoadUnselectedColumns r b = Fulfilled [].
Proof.
  apply (no_table_no_column_options Scenario.defaultQuery
           Scenario.mapGreptimeTypeToGrafana Scenario.props mount
           (Scenario.host Scenario.new_query) Scenario.new_query []);
    [reflexivity | reflexivity | apply mount_ok | reflexivity].
Defined.

Lemma schema_promises_memoized_witness :
  ∃ r1 h1 w1,
    Scenario.render Scenario.props mount
      (Scenario.host (Scenario.query_of "metrics" ["cpu"])) = Some (r1, h1, w1) ∧
    ∃ r2 h2 w2,
      Scenario.render Scenario.props h1 w1 = Some (r2, h2, w2) ∧
      getAllTables r2 = getAllTables r1 ∧
      getColumnSchema r2 = getColumnSchema r1 ∧
      requests w2 = requests w1 ∧
      ∀ reason,
        settle (getColumnSchema r1) Scenario.failing = Rejected reason →
        settle (getColumnSchema r2) Scenario.failing = Rejected reason.
Proof.
  set (o := Scenario.query_of "metrics" ["cpu"]).
  assert (heap (Scenario.host o) !! query Scenario.props = Some o) as Ho
    by reflexivity.
  assert (nullish_or_array
            (get (defaults_object o Scenario.defaultQuery) "selectedColumns")
          = Some [Some "cpu"]) as Hsel by reflexivity.
  destruct (render_total Scenario.defaultQuery Scenario.mapGreptimeTypeToGrafana
              Scenario.props mount (Scenario.host o) o [Some "cpu"] Ho Hsel)
    as (r1 & h1 & w1 & Hr1).
  exists r1, h1, w1. split; [exact Hr1 |].
  destruct (render_frame _ _ _ _ _ _ _ _ _ _ Ho Hsel Hr1)
    as (_ & Hft1 & _ & Hh1 & _).
  assert (heap w1 !! query Scenario.props
          = Some (defaults_object o Scenario.defaultQuery)) as Ho2.
  { rewrite Hh1. apply lookup_insert_eq. }
  assert (nullish_or_array
            (get (defaults_object (defaults_object o Scenario.defaultQuery)
                                  Scenario.defaultQuery) "selectedColumns")
          = Some [Some "cpu"]) as Hsel2 by reflexivity.
  destruct (schema_promises_memoized Scenario.defaultQuery
              Scenario.mapGreptimeTypeToGrafana Scenario.props Scenario.props
              mount h1 (Scenario.host o) w1 w1 o _ [Some "cpu"] [Some "cpu"] r1
              Ho Hsel (mount_ok _ _) Hr1 (le_n _) Ho2 Hsel2)
    as (r2 & h2 & w2 & Hr2 & Htables & Hcolumns & _ & _ & _ & _ & _ & Hfailed).
  destruct (render_frame _ _ _ _ _ _ _ _ _ _ Ho2 Hsel2 Hr2) as (_ & Hft2 & _).
  assert (r_fromTable r2 = r_fromTable r1) as Hft
    by (rewrite Hft1, Hft2; reflexivity).
  exists r2, h2, w2. split; [exact Hr2 |].
  destruct (Hcolumns eq_refl Hft) as [Hc Hq].
  split; [exact (Htables eq_refl) |].
  split; [exact Hc |]. split; [exact Hq |].
  intros reason Hrej. exact (proj1 (Hfailed _ _ eq_refl Hft Hrej)).
Defined.

(** * Further properties of the component *)

(** ** Default filling, once more *)

(** Filling defaults a second time changes nothing. *)
Lemma defaults_object_idem (o source : object) :
  defaults_object (defaults_object o source) source = defaults_object o source.
Proof.
  apply map_eq. intros k. rewrite !lookup_defaults_object.
  destruct (o !! k) as [v|], (source !! k) as [d|]; simpl; try done.
  - case_decide; simpl; [| by rewrite decide_False].
    destruct (decide (d = VUndefined)); [by subst | done].
  - by case_decide.
Qed.

(** A property of the defaulted object that reads [undefined] has no
    default either. *)
Lemma get_defaults_object_undefined (o source : object) (k : string) :
  get (defaults_object o source) k = VUndefined → get source k = VUndefined.
Proof.
  intros Hu. destruct (decide (get o k = VUndefined)) as [Ho | Ho].
  - by rewrite get_defaults_object_unset in Hu.
  - by rewrite get_defaults_object_set in Hu.
Qed.

(** Reading the object that a change handler built, after defaults were
    filled into it: the new value under the key (the default, if the new
    value is [undefined]), the old value elsewhere. *)
Lemma get_defaults_after_spread (o source : object) (key k : string) (v : jsval) :
  get (defaults_object (spread_with (defaults_object o source) key v) source) k
  = if decide (key = k)
    then (if decide (v = VUndefined) then get source k else v)
    else get (defaults_object o source) k.
Proof.
  case_decide as Hk.
  - subst k. case_decide as Hv.
    + apply get_defaults_object_unset. by rewrite get_spread_with_eq.
    + rewrite get_defaults_object_set; rewrite get_spread_with_eq; done.
  - destruct (decide (get (defaults_object o source) k = VUndefined)) as [Hu | Hu].
    + rewrite get_defaults_object_unset by (by rewrite get_spread_with_ne).
      rewrite Hu. by apply get_defaults_object_undefined in Hu.
    + rewrite get_defaults_object_set; rewrite get_spread_with_ne; done.
Qed.

Section Further.

Context (defaultQuery : object) (mapGreptimeTypeToGrafana : string → FieldType).

Local Abbreviation VisualQueryEditor :=
  (VisualQueryEditor defaultQuery mapGreptimeTypeToGrafana).
Local Abbreviation cells_ok := (hooks_ok mapGreptimeTypeToGrafana).
Local Abbreviation rerender := (rerender defaultQuery mapGreptimeTypeToGrafana).

(** An async function sends nothing when it is called. *)
Lemma memo_async_requests {A B D} (cell : option (D * promise B))
    (p : promise A) (k : A → B) (deps : D) (w w' : world) v c' :
  memo_step cell (async_await p k) deps w v c' w' →
  requests w' = requests w.
Proof.
  intros S. destruct S as [v Hc | v w' Hm Hf]; [done |].
  rewrite async_await_run in Hf. by injection Hf as <- <-.
Qed.

(** The requests a render sends, read off the cells it was given: the table
    list unless the cell holds the client, the column schema unless the cell
    holds the client and [fromTable] or [fromTable] is falsy. *)
Lemma render_requests (props : Props) (h h' : Hooks) (w w' : world)
    (o : object) (sel : list entry) (r : Rendered) :
  heap w !! query props = Some o →
  nullish_or_array (get (defaults_object o defaultQuery) "selectedColumns")
    = Some sel →
  VisualQueryEditor props h w = Some (r, h', w') →
  let fromTable := get (defaults_object o defaultQuery) "fromTable" in
  requests w'
  = requests w
    ++ (if decide (fst <$> cell_getAllTables h = Some (client props)) then []
        else [(pid (getAllTables r), ShowTables (client props))])
    ++ (if decide (fst <$> cell_getColumnSchema h
                   = Some (client props, fromTable)) then []
        else if truthy fromTable
             then [(pid (getColumnSchema r),
                    QueryColumnSchemaOfTable (client props) fromTable)]
             else []).
Proof.
  intros Ho Hsel Hr fromTable.
  destruct (render_run defaultQuery mapGreptimeTypeToGrafana props h w o sel
              Ho Hsel)
    as (p1 & c1 & w1 & p2 & c2 & w2 & p3 & c3 & w3 & p4 & c4 & w4
        & S1 & S2 & S3 & S4 & E).
  rewrite E in Hr. injection Hr as <- <- <-. simpl.
  rewrite (memo_async_requests _ _ _ _ _ _ _ _ S4). simpl.
  rewrite (memo_async_requests _ _ _ _ _ _ _ _ S3).
  fold fromTable in S2.
  assert (requests w1
          = requests w
            ++ (if decide (fst <$> cell_getAllTables h = Some (client props))
                then [] else [(pid p1, ShowTables (client props))])) as R1.
  { destruct S1 as [v Hc | v w' Hm Hf].
    - rewrite Hc. simpl. rewrite decide_True by done. by rewrite app_nil_r.
    - rewrite showTables_run in Hf. injection Hf as <- <-. simpl.
      rewrite decide_False; [done |].
      destruct (cell_getAllTables h) as [[d x]|]; simpl; [| done].
      intros [= ->]. by apply (Hm x). }
  assert (requests w2
          = requests w1
            ++ (if decide (fst <$> cell_getColumnSchema h
                           = Some (client props, fromTable)) then []
                else if truthy fromTable
                     then [(pid p2,
                            QueryColumnSchemaOfTable (client props) fromTable)]
                     else [])) as R2.
  { destruct S2 as [v Hc | v w' Hm Hf].
    - rewrite Hc. simpl. rewrite decide_True by done. by rewrite app_nil_r.
    - rewrite decide_False.
      + destruct (truthy fromTable).
        * rewrite queryColumnSchemaOfTable_run in Hf. by injection Hf as <- <-.
        * rewrite Promise_resolve_run in Hf. injection Hf as <- <-. simpl.
          by rewrite app_nil_r.
      + destruct (cell_getColumnSchema h) as [[d x]|]; simpl; [| done].
        intros [= ->]. by apply (Hm x). }
  by rewrite R2, R1, <- app_assoc.
Qed.

(** The time column a render captures. *)
Lemma render_timeColumn (props : Props) (h h' : Hooks) (w w' : world)
    (o : object) (sel : list entry) (r : Rendered) :
  heap w !! query props = Some o →
  nullish_or_array (get (defaults_object o defaultQuery) "selectedColumns")
    = Some sel →
  VisualQueryEditor props h w = Some (r, h', w') →
  r_timeColumn r = get (defaults_object o defaultQuery) "timeColumn".
Proof.
  intros Ho Hsel Hr.
  destruct (render_run defaultQuery mapGreptimeTypeToGrafana props h w o sel
              Ho Hsel)
    as (p1 & c1 & w1 & p2 & c2 & w2 & p3 & c3 & w3 & p4 & c4 & w4
        & _ & _ & _ & _ & E).
  rewrite E in Hr. by injection Hr as <- <- <-.
Qed.

(** The promise of the table list is in the state of the backend's answer
    to its request. *)
Lemma render_tables (props : Props) (h h' : Hooks) (w w' : world)
    (o : object) (sel : list entry) (r : Rendered) (b : backend) :
  heap w !! query props = Some o →
  nullish_or_array (get (defaults_object o defaultQuery) "selectedColumns")
    = Some sel →
  cells_ok (next_id w) h →
  VisualQueryEditor props h w = Some (r, h', w') →
  settle (getAllTables r) b = tables_answer b (pid (getAllTables r)).
Proof.
  intros Ho Hsel Hok Hr.
  destruct (render_spec _ _ _ _ _ _ _ _ _ _ Ho Hsel Hok Hr)
    as (_ & (H1 & _) & Hc1 & _).
  by destruct (H1 _ _ Hc1).
Qed.

(** The cells of the two derived promises after a render: the time columns
    under the identity of the column schema promise, the unselected columns
    under an array identity taken during this render. *)
Lemma render_derived_cells (props : Props) (h h' : Hooks) (w w' : world)
    (o : object) (sel : list entry) (r : Rendered) :
  heap w !! query props = Some o →
  nullish_or_array (get (defaults_object o defaultQuery) "selectedColumns")
    = Some sel →
  cells_ok (next_id w) h →
  VisualQueryEditor props h w = Some (r, h', w') →
  cell_getTimeColumns h' = Some (pid (getColumnSchema r), getTimeColumns r) ∧
  next_id w ≤ pid (unselectedColumnsSchemas r) ∧
  pid (unselectedColumnsSchemas r) < next_id w'.
Proof.
  intros Ho Hsel (H1 & H2 & H3 & H4) Hr.
  destruct (render_run defaultQuery mapGreptimeTypeToGrafana props h w o sel
              Ho Hsel)
    as (p1 & c1 & w1 & p2 & c2 & w2 & p3 & c3 & w3 & p4 & c4 & w4
        & S1 & S2 & S3 & S4 & E).
  rewrite E in Hr. injection Hr as <- <- <-. simpl.
  destruct (memo_getAllTables _ (next_id w) _ _ _ _ _ S1 H1)
    as (_ & _ & Hn1 & _); [done |].
  destruct (memo_getColumnSchema _ (next_id w) _ _ _ _ _ _ S2 H2)
    as (_ & _ & Hn2 & _ & _ & _ & Hor); [simpl in *; lia |].
  destruct (memo_getTimeColumns _ (next_id w) _ _ _ _ _ _ _
              (client props, get (defaults_object o defaultQuery) "fromTable")
              S3 H3 Hor)
    as (_ & _ & _ & Hn3 & Hc3 & _).
  simpl in *. split; [done |].
  destruct S4 as [v Hc | v w' Hm Hf].
  - specialize (H4 _ _ _ Hc). lia.
  - rewrite async_await_run in Hf. injection Hf as <- <-. simpl. lia.
Qed.

(** A render whose cell of the time columns holds the identity of the column
    schema promise returns the cached promise. *)
Lemma render_timeColumns_hit (props : Props) (h h' : Hooks) (w w' : world)
    (o : object) (sel : list entry) (r : Rendered) p :
  heap w !! query props = Some o →
  nullish_or_array (get (defaults_object o defaultQuery) "selectedColumns")
    = Some sel →
  VisualQueryEditor props h w = Some (r, h', w') →
  cell_getTimeColumns h = Some (pid (getColumnSchema r), p) →
  getTimeColumns r = p.
Proof.
  intros Ho Hsel Hr.
  destruct (render_run defaultQuery mapGreptimeTypeToGrafana props h w o sel
              Ho Hsel)
    as (p1 & c1 & w1 & p2 & c2 & w2 & p3 & c3 & w3 & p4 & c4 & w4
        & _ & _ & S3 & _ & E).
  rewrite E in Hr. injection Hr as <- <- <-. simpl. intros Hc.
  by destruct (memo_step_hit _ _ _ _ _ _ _ _ S3 Hc).
Qed.

(** A change handler followed by the render of the object it handed over:
    what the second render captures and which promises it shares with the
    first. *)
Lemma change_then_render (props : Props) (h h1 : Hooks) (w w1 : world)
    (o : object) (sel sel2 : list entry) (r1 : Rendered) (key : string)
    (v : jsval) :
  heap w !! query props = Some o →
  nullish_or_array (get (defaults_object o defaultQuery) "selectedColumns")
    = Some sel →
  cells_ok (next_id w) h →
  VisualQueryEditor props h w = Some (r1, h1, w1) →
  nullish_or_array
    (get (defaults_object (spread_with (defaults_object o defaultQuery) key v)
                          defaultQuery) "selectedColumns") = Some sel2 →
  ∃ w2 l r2 h2 w3,
    w2 = after_change w1 (spread_with (defaults_object o defaultQuery) key v) ∧
    l = fresh (dom (heap w1)) ∧
    changeQueryByKey r1 key v w1 = Some (tt, w2) ∧
    handed_over w1 w2 = [l] ∧
    heap w2 !! l = Some (spread_with (defaults_object o defaultQuery) key v) ∧
    cells_ok (next_id w2) h1 ∧
    VisualQueryEditor {| client := client props; query := l |} h1 w2
    = Some (r2, h2, w3) ∧
    r_selectedColumns r2 = sel2 ++ [Some sentinel] ∧
    (∀ k, (k = "fromTable" → r_fromTable r2 = if decide (key = k)
             then (if decide (v = VUndefined) then get defaultQuery k else v)
             else r_fromTable r1) ∧
          (k = "timeColumn" → r_timeColumn r2 = if decide (key = k)
             then (if decide (v = VUndefined) then get defaultQuery k else v)
             else r_timeColumn r1)) ∧
    getAllTables r2 = getAllTables r1 ∧
    (r_fromTable r2 = r_fromTable r1 →
     getColumnSchema r2 = getColumnSchema r1 ∧
     getTimeColumns r2 = getTimeColumns r1) ∧
    (r_fromTable r2 ≠ r_fromTable r1 →
     pid (getColumnSchema r2) ≠ pid (getColumnSchema r1)) ∧
    requests w3
    = requests w1
      ++ (if decide (r_fromTable r2 = r_fromTable r1) then []
          else if truthy (r_fromTable r2)
               then [(pid (getColumnSchema r2),
                      QueryColumnSchemaOfTable (client props) (r_fromTable r2))]
               else []).
Proof.
  intros Ho Hsel Hok Hr1 Hsel2.
  set (q := defaults_object o defaultQuery) in *.
  set (q' := spread_with q key v) in *.
  destruct (render_frame _ _ _ _ _ _ _ _ _ _ Ho Hsel Hr1)
    as (Hq1 & Hft1 & _ & Hh1 & _). fold q in Hft1, Hh1.
  pose proof (render_timeColumn _ _ _ _ _ _ _ _ Ho Hsel Hr1) as Htc1. fold q in Htc1.
  destruct (render_spec _ _ _ _ _ _ _ _ _ _ Ho Hsel Hok Hr1)
    as (_ & Hok1 & Hc1 & Hc2 & Hp1 & Hp2 & _). fold q in Hc2.
  destruct (render_derived_cells _ _ _ _ _ _ _ _ Ho Hsel Hok Hr1)
    as (Hc3 & _ & _).
  assert (heap w1 !! r_query r1 = Some q) as Hq.
  { rewrite Hq1, Hh1. apply lookup_insert_eq. }
  set (l := fresh (dom (heap w1))).
  set (w2 := after_change w1 q').
  set (props2 := {| client := client props; query := l |}).
  assert (heap w2 !! query props2 = Some q') as Ho2 by apply lookup_insert_eq.
  destruct (render_total defaultQuery mapGreptimeTypeToGrafana props2 h1 w2 q'
              sel2 Ho2 Hsel2) as (r2 & h2 & w3 & Hr2).
  destruct (render_frame _ _ _ _ _ _ _ _ _ _ Ho2 Hsel2 Hr2)
    as (_ & Hft2 & Hs2 & _ & _).
  pose proof (render_timeColumn _ _ _ _ _ _ _ _ Ho2 Hsel2 Hr2) as Htc2.
  assert (cells_ok (next_id w2) h1) as Hok2 by exact Hok1.
  destruct (render_memo _ _ _ _ _ _ _ _ _ _ Ho2 Hsel2 Hok2 Hr2)
    as (Hhit1 & Hhit2 & _ & _ & Hmiss2).
  rewrite <- Hft2 in Hhit2, Hmiss2.
  pose proof (render_requests _ _ _ _ _ _ _ _ Ho2 Hsel2 Hr2) as Hreq.
  simpl in Hreq. rewrite <- Hft2 in Hreq.
  rewrite Hc1, Hc2 in Hreq. simpl in Hreq.
  rewrite decide_True in Hreq by done. simpl in Hreq.
  exists w2, l, r2, h2, w3. split_and!; try done.
  - by apply changeQueryByKey_run.
  - by apply handed_over_snoc.
  - intros k. split; intros ->.
    + rewrite Hft2, Hft1. apply get_defaults_after_spread.
    + rewrite Htc2, Htc1. apply get_defaults_after_spread.
  - by apply Hhit1.
  - intros Hsame. assert (getColumnSchema r2 = getColumnSchema r1) as Hcs.
    { apply Hhit2. by rewrite Hsame, Hft1. }
    split; [done |].
    apply (render_timeColumns_hit _ _ _ _ _ _ _ _ _ Ho2 Hsel2 Hr2).
    by rewrite Hcs.
  - intros Hne. assert (next_id w2 ≤ pid (getColumnSchema r2)) as Hge.
    { apply Hmiss2. intros p Hp. rewrite Hc2 in Hp. injection Hp as Hp _.
      apply Hne. by rewrite Hft1. }
    simpl in Hge. lia.
  - rewrite Hreq. f_equal. rewrite <- Hft1.
    destruct (decide (r_fromTable r2 = r_fromTable r1)) as [He | He].
    + rewrite decide_True; [done |]. by rewrite He.
    + rewrite decide_False; [done |]. intros [= Hx]. by apply He.
Qed.

(** ** The table picker *)

(** X1: in every render, once the backend has answered the table request
    with a list of names, the table picker offers one option per name, in
    the order of the answer, each with the name as label and as value;
    nothing is filtered out, whatever table or columns are selected. *)
Theorem table_options_exact (props : Props) (h : Hooks) (w : world)
    (o : object) (sel : list entry) :
  heap w !! query props = Some o →
  nullish_or_array (get (defaults_object o defaultQuery) "selectedColumns")
    = Some sel →
  cells_ok (next_id w) h →
  ∃ r h' w',
    VisualQueryEditor props h w = Some (r, h', w') ∧
    ∀ b tables,
      tables_answer b (pid (getAllTables r)) = Fulfilled tables →
      ∃ opts,
        handleLoadFromTables r b = Fulfilled opts ∧
        length opts = length tables ∧
        (∀ i, opts !! i = toOption <$> tables !! i) ∧
        (∀ t, t ∈ tables → {| label := Some t; value := Some t |} ∈ opts).
Proof.
  intros Ho Hsel Hok.
  destruct (render_total defaultQuery mapGreptimeTypeToGrafana props h w o sel
              Ho Hsel) as (r & h' & w' & Hr).
  exists r, h', w'. split; [done |]. intros b tables Hb.
  pose proof (render_tables _ _ _ _ _ _ _ _ b Ho Hsel Hok Hr) as Ht.
  exists (toOption <$> tables). split_and!.
  - unfold handleLoadFromTables. by rewrite Ht, Hb.
  - apply length_fmap.
  - intros i. apply list_lookup_fmap.
  - intros t Hin. by apply (list_elem_of_fmap_2 toOption).
Qed.

(** ** Failures and delays of the backend *)

(** X2: a loader is in the state of the request behind it.  When the
    backend rejects the table request, the table picker's loader is
    rejected with the same reason; when a table is set and the backend
    rejects the column request, the loaders of the time column picker, of
    the add segment and of every column segment are rejected with that
    reason - no option list is produced, not even the current value of a
    column segment.  While a request is unanswered, the loaders are
    pending. *)
Theorem loaders_follow_failed_requests (props : Props) (h : Hooks) (w : world)
    (o : object) (sel : list entry) :
  heap w !! query props = Some o →
  nullish_or_array (get (defaults_object o defaultQuery) "selectedColumns")
    = Some sel →
  cells_ok (next_id w) h →
  ∃ r h' w',
    VisualQueryEditor props h w = Some (r, h', w') ∧
    ∀ b,
      (∀ reason,
         tables_answer b (pid (getAllTables r)) = Rejected reason →
         handleLoadFromTables r b = Rejected reason) ∧
      (tables_answer b (pid (getAllTables r)) = Pending →
       handleLoadFromTables r b = Pending) ∧
      (truthy (r_fromTable r) = true →
       (∀ reason,
          columns_answer b (pid (getColumnSchema r)) = Rejected reason →
          loadTimeColumns r b = Rejected reason ∧
          handleLoadUnselectedColumns r b = Rejected reason ∧
          ∀ selfVal, handleLoadReselectColumns r selfVal b = Rejected reason) ∧
       (columns_answer b (pid (getColumnSchema r)) = Pending →
        loadTimeColumns r b = Pending ∧
        handleLoadUnselectedColumns r b = Pending ∧
        ∀ selfVal, handleLoadReselectColumns r selfVal b = Pending)).
Proof.
  intros Ho Hsel Hok.
  destruct (render_total defaultQuery mapGreptimeTypeToGrafana props h w o sel
              Ho Hsel) as (r & h' & w' & Hr).
  exists r, h', w'. split; [done |]. intros b.
  pose proof (render_tables _ _ _ _ _ _ _ _ b Ho Hsel Hok Hr) as Ht.
  destruct (render_frame _ _ _ _ _ _ _ _ _ _ Ho Hsel Hr) as (_ & Hft & _).
  destruct (render_spec _ _ _ _ _ _ _ _ _ _ Ho Hsel Hok Hr)
    as (_ & _ & _ & _ & _ & _ & Hc & _).
  specialize (Hc b). rewrite <- Hft in Hc.
  destruct (render_options _ _ _ _ _ _ _ _ _ _ b Ho Hsel Hok Hr)
    as (Htime & Hun & _).
  unfold handleLoadFromTables, handleLoadReselectColumns.
  rewrite Htime, Hun, Ht. split_and!.
  - by intros reason ->.
  - by intros ->.
  - intros Htruthy. rewrite Htruthy in Hc. rewrite Hc. split.
    + by intros reason ->.
    + by intros ->.
Qed.

(** ** Requests *)

(** X3: the first render of a mounted editor sends the table request, and
    the column request for [fromTable] exactly when [fromTable] is truthy;
    it sends nothing else, and it does so during the render, before any
    picker is opened.  The promises it holds are those of these requests. *)
Theorem first_render_requests (props : Props) (w : world) (o : object)
    (sel : list entry) :
  heap w !! query props = Some o →
  nullish_or_array (get (defaults_object o defaultQuery) "selectedColumns")
    = Some sel →
  ∃ r h' w',
    VisualQueryEditor props mount w = Some (r, h', w') ∧
    requests w'
    = requests w
      ++ [(pid (getAllTables r), ShowTables (client props))]
      ++ (if truthy (r_fromTable r)
          then [(pid (getColumnSchema r),
                 QueryColumnSchemaOfTable (client props) (r_fromTable r))]
          else []) ∧
    pid (getAllTables r) ≠ pid (getColumnSchema r) ∧
    next_id w ≤ pid (getAllTables r) ∧
    next_id w ≤ pid (getColumnSchema r).
Proof.
  intros Ho Hsel.
  destruct (render_total defaultQuery mapGreptimeTypeToGrafana props mount w o
              sel Ho Hsel) as (r & h' & w' & Hr).
  exists r, h', w'. split; [done |].
  pose proof (render_requests _ _ _ _ _ _ _ _ Ho Hsel Hr) as Hreq.
  destruct (render_frame _ _ _ _ _ _ _ _ _ _ Ho Hsel Hr) as (_ & Hft & _).
  simpl in Hreq. rewrite <- Hft in Hreq. split; [exact Hreq |].
  destruct (render_run defaultQuery mapGreptimeTypeToGrafana props mount w o
              sel Ho Hsel)
    as (p1 & c1 & w1 & p2 & c2 & w2 & p3 & c3 & w3 & p4 & c4 & w4
        & S1 & S2 & _ & _ & E).
  rewrite E in Hr. injection Hr as <- <- <-. simpl.
  destruct S1 as [v Hc | v w1' Hm Hf]; [discriminate |].
  rewrite showTables_run in Hf. injection Hf as <- <-.
  destruct S2 as [v Hc | v w2' Hm2 Hf]; [discriminate |].
  destruct (truthy (get (defaults_object o defaultQuery) "fromTable"));
    [rewrite queryColumnSchemaOfTable_run in Hf
    | rewrite Promise_resolve_run in Hf];
    injection Hf as <- <-; simpl; lia.
Qed.

(** Renders that follow one another with the same props, on a query object
    that already holds its defaults: every cell is hit. *)
Lemma rerender_quiet (props : Props) (sel : list entry) (q : object) (n : nat) :
  defaults_object q defaultQuery = q →
  nullish_or_array (get q "selectedColumns") = Some sel →
  ∀ r h w,
    heap w !! query props = Some q →
    cells_ok (next_id w) h →
    cell_getAllTables h = Some (client props, getAllTables r) →
    cell_getColumnSchema h
    = Some ((client props, get q "fromTable"), getColumnSchema r) →
    cell_getTimeColumns h = Some (pid (getColumnSchema r), getTimeColumns r) →
    ∃ r' h' w',
      rerender n props (r, h) w = Some ((r', h'), w') ∧
      requests w' = requests w ∧
      heap w' = heap w ∧
      emitted w' = emitted w ∧
      getAllTables r' = getAllTables r ∧
      getColumnSchema r' = getColumnSchema r ∧
      getTimeColumns r' = getTimeColumns r.
Proof.
  intros Hidem Hsel. induction n as [| n IH]; intros r h w Hq Hok Hc1 Hc2 Hc3.
  - by exists r, h, w.
  - assert (nullish_or_array
              (get (defaults_object q defaultQuery) "selectedColumns")
            = Some sel) as Hsel' by (by rewrite Hidem).
    destruct (render_total defaultQuery mapGreptimeTypeToGrafana props h w q
                sel Hq Hsel') as (r1 & h1 & w1 & Hr).
    destruct (render_frame _ _ _ _ _ _ _ _ _ _ Hq Hsel' Hr)
      as (_ & _ & _ & Hh & He).
    rewrite Hidem in Hh. rewrite insert_id in Hh by done.
    destruct (render_spec _ _ _ _ _ _ _ _ _ _ Hq Hsel' Hok Hr)
      as (_ & Hok1 & Hc1' & Hc2' & _).
    rewrite Hidem in Hc2'.
    destruct (render_derived_cells _ _ _ _ _ _ _ _ Hq Hsel' Hok Hr)
      as (Hc3' & _ & _).
    destruct (render_memo _ _ _ _ _ _ _ _ _ _ Hq Hsel' Hok Hr)
      as (Hhit1 & Hhit2 & Hquiet & _ & _).
    rewrite Hidem in Hhit2, Hquiet.
    pose proof (Hhit1 _ Hc1) as E1. pose proof (Hhit2 _ Hc2) as E2.
    pose proof (Hquiet _ _ Hc1 Hc2) as Eq.
    assert (getTimeColumns r1 = getTimeColumns r) as E3.
    { apply (render_timeColumns_hit _ _ _ _ _ _ _ _ _ Hq Hsel' Hr).
      by rewrite E2. }
    destruct (IH r1 h1 w1) as (r' & h' & w' & Hrun & R & H' & E' & T1 & T2 & T3);
      try done.
    { by rewrite Hh. }
    exists r', h', w'. split_and!; try congruence.
    simpl. by rewrite (bind_Some _ _ _ _ _ Hr).
Qed.

(** X4: after any render, React may call the component again any number of
    times with the same props: no request is sent, the three schema
    promises stay the very same, nothing is handed to the host and no
    object changes any more (the defaults were written by the first
    render). *)
Theorem rerender_sends_nothing (props : Props) (h : Hooks) (w : world)
    (o : object) (sel : list entry) :
  heap w !! query props = Some o →
  nullish_or_array (get (defaults_object o defaultQuery) "selectedColumns")
    = Some sel →
  cells_ok (next_id w) h →
  ∃ r1 h1 w1,
    VisualQueryEditor props h w = Some (r1, h1, w1) ∧
    ∀ n, ∃ r2 h2 w2,
      rerender n props (r1, h1) w1 = Some ((r2, h2), w2) ∧
      requests w2 = requests w1 ∧
      heap w2 = heap w1 ∧
      emitted w2 = emitted w1 ∧
      getAllTables r2 = getAllTables r1 ∧
      getColumnSchema r2 = getColumnSchema r1 ∧
      getTimeColumns r2 = getTimeColumns r1.
Proof.
  intros Ho Hsel Hok.
  destruct (render_total defaultQuery mapGreptimeTypeToGrafana props h w o sel
              Ho Hsel) as (r1 & h1 & w1 & Hr).
  exists r1, h1, w1. split; [done |]. intros n.
  destruct (render_frame _ _ _ _ _ _ _ _ _ _ Ho Hsel Hr)
    as (_ & _ & _ & Hh & _).
  destruct (render_spec _ _ _ _ _ _ _ _ _ _ Ho Hsel Hok Hr)
    as (_ & Hok1 & Hc1 & Hc2 & _).
  destruct (render_derived_cells _ _ _ _ _ _ _ _ Ho Hsel Hok Hr)
    as (Hc3 & _ & _).
  apply (rerender_quiet props sel (defaults_object o defaultQuery) n);
    try done.
  - apply defaults_object_idem.
  - rewrite Hh. apply lookup_insert_eq.
Qed.

(** ** Ill-typed selections *)

(** X5: a render throws exactly when [selectedColumns], after defaults, is
    something other than [undefined], [null] or an array; a nullish
    [selectedColumns] is shown as the empty selection. *)
Theorem render_throws_iff_selection_ill_typed (props : Props) (h : Hooks)
    (w : world) (o : object) :
  heap w !! query props = Some o →
  (VisualQueryEditor props h w = None ↔
   nullish_or_array (get (defaults_object o defaultQuery) "selectedColumns")
   = None) ∧
  (get (defaults_object o defaultQuery) "selectedColumns" = VUndefined ∨
   get (defaults_object o defaultQuery) "selectedColumns" = VNull →
   ∃ r h' w', VisualQueryEditor props h w = Some (r, h', w') ∧
              r_selectedColumns r = [Some sentinel] ∧
              segments (r_selectedColumns r) = [AddSegment]).
Proof.
  intros Ho. split; [split |].
  - intros Hnone.
    destruct (nullish_or_array
                (get (defaults_object o defaultQuery) "selectedColumns"))
      as [sel|] eqn:Hsel; [| done].
    destruct (render_total defaultQuery mapGreptimeTypeToGrafana props h w o
                sel Ho Hsel) as (r & h' & w' & Hr). congruence.
  - intros Hsel.
    set (q := defaults_object o defaultQuery) in *.
    set (w0 := after_store w (query props) q).
    assert (Hd : defaults (query props) defaultQuery w = Some (query props, w0)).
    { unfold defaults, bind, deref, store. by rewrite Ho. }
    assert (Hq : deref (query props) w0 = Some (q, w0)).
    { unfold deref, w0, after_store. simpl. by rewrite lookup_insert_eq. }
    destruct (useMemo_step (cell_getAllTables h) (showTables (client props))
                (client props) w0) as (p1 & c1 & w1 & E1 & _).
    { rewrite showTables_run. eauto. }
    destruct (useMemo_step (cell_getColumnSchema h)
                (if truthy (get q "fromTable")
                 then queryColumnSchemaOfTable (client props) (get q "fromTable")
                 else Promise_resolve [])
                (client props, get q "fromTable") w1)
      as (p2 & c2 & w2 & E2 & _).
    { destruct (truthy (get q "fromTable"));
        [rewrite queryColumnSchemaOfTable_run | rewrite Promise_resolve_run];
        eauto. }
    destruct (useMemo_step (cell_getTimeColumns h)
                (async_await p2 (timeColumns mapGreptimeTypeToGrafana))
                (pid p2) w2) as (p3 & c3 & w3 & E3 & _).
    { rewrite async_await_run. eauto. }
    unfold VisualQueryEditor.
    rewrite (bind_Some _ _ _ _ _ Hd), (bind_Some _ _ _ _ _ Hq).
    fold q.
    rewrite (bind_Some _ _ _ _ _ E1), (bind_Some _ _ _ _ _ E2),
      (bind_Some _ _ _ _ _ E3).
    rewrite Hsel. reflexivity.
  - intros Hnull.
    assert (nullish_or_array
              (get (defaults_object o defaultQuery) "selectedColumns")
            = Some []) as Hsel.
    { by destruct Hnull as [-> | ->]. }
    destruct (render_total defaultQuery mapGreptimeTypeToGrafana props h w o
                [] Ho Hsel) as (r & h' & w' & Hr).
    destruct (render_frame _ _ _ _ _ _ _ _ _ _ Ho Hsel Hr)
      as (_ & _ & Hs & _ & _).
    exists r, h', w'. split; [done |]. rewrite Hs. done.
Qed.

(** ** The sections below the FROM row *)

Lemma sections_keys (selectedColumns : list entry) :
  section_key <$> sections selectedColumns = selectedColumns.
Proof.
  unfold sections. rewrite fmap_imap.
  rewrite (imap_ext _ (const id)) by done.
  by rewrite imap_const, list_fmap_id.
Qed.

Lemma sections_bodies (selectedColumns : list entry) :
  section_body <$> sections selectedColumns = segments selectedColumns.
Proof. unfold sections, segments. by rewrite fmap_imap. Qed.

(** X6: in every render there is one section per selected column, in
    order, and one more for the add segment; the React key of a section is
    the column name, the sentinel for the last; so the keys are pairwise
    different exactly when the selection has no duplicate and does not
    contain the sentinel string.  The label [SELECT] is on the first
    section and on no other. *)
Theorem sections_keys_and_labels (props : Props) (h : Hooks) (w : world)
    (o : object) (sel : list entry) :
  heap w !! query props = Some o →
  nullish_or_array (get (defaults_object o defaultQuery) "selectedColumns")
    = Some sel →
  ∃ r h' w',
    VisualQueryEditor props h w = Some (r, h', w') ∧
    length (sections (r_selectedColumns r)) = S (length sel) ∧
    section_body <$> sections (r_selectedColumns r)
    = (SegmentAsync <$> sel) ++ [AddSegment] ∧
    section_key <$> sections (r_selectedColumns r) = sel ++ [Some sentinel] ∧
    (NoDup (section_key <$> sections (r_selectedColumns r)) ↔
     NoDup sel ∧ Some sentinel ∉ sel) ∧
    (∀ i s, sections (r_selectedColumns r) !! i = Some s →
            (section_label s = "SELECT" ↔ i = 0)).
Proof.
  intros Ho Hsel.
  destruct (render_total defaultQuery mapGreptimeTypeToGrafana props h w o sel
              Ho Hsel) as (r & h' & w' & Hr).
  destruct (render_frame _ _ _ _ _ _ _ _ _ _ Ho Hsel Hr)
    as (_ & _ & Hs & _ & _).
  exists r, h', w'. split; [done |]. rewrite Hs. split_and!.
  - unfold sections. rewrite length_imap, length_app. simpl. lia.
  - rewrite sections_bodies. apply list_eq. intros i.
    destruct (decide (i < length sel)) as [Hlt | Hge].
    + destruct (lookup_lt_is_Some_2 sel i Hlt) as [column Hc].
      rewrite (segments_column _ _ _ Hc).
      rewrite lookup_app_l by (by rewrite length_fmap).
      by rewrite list_lookup_fmap, Hc.
    + destruct (decide (i = length sel)) as [-> | Hne].
      * rewrite segments_add.
        rewrite lookup_app_r by (by rewrite length_fmap).
        by rewrite length_fmap, Nat.sub_diag.
      * rewrite !lookup_ge_None_2; [done | |].
        -- rewrite length_app, length_fmap. simpl. lia.
        -- unfold segments. rewrite length_imap, length_app. simpl. lia.
  - apply sections_keys.
  - rewrite sections_keys, NoDup_app. split.
    + intros (Hnd & Hnot & _). split; [done |].
      intros Hin. apply (Hnot _ Hin). by left.
    + intros [Hnd Hnot]. split_and!; [done | | apply NoDup_singleton].
      intros x Hx Hxs. apply list_elem_of_singleton in Hxs. by subst x.
  - intros i s Hi. unfold sections in Hi. rewrite list_lookup_imap in Hi.
    destruct ((sel ++ [Some sentinel]) !! i) as [column|]; [| done].
    simpl in Hi. injection Hi as <-. simpl.
    destruct i as [| i]; simpl; split; (done || lia || discriminate).
Qed.

(** ** The memo of the unselected columns *)

(** X7: the promise of the unselected columns is a new one in every render,
    also when neither the client, nor the table, nor the selection has
    changed: its memo cell depends on the array [selectedColumns], which
    every render creates anew.  The promise of the time columns, which
    depends on the column schema promise alone, is kept as long as that
    promise is. *)
Theorem unselected_columns_recomputed_every_render (props1 props2 : Props)
    (h h1 : Hooks) (w w1 w2 : world) (o1 o2 : object) (sel1 sel2 : list entry)
    (r1 : Rendered) :
  heap w !! query props1 = Some o1 →
  nullish_or_array (get (defaults_object o1 defaultQuery) "selectedColumns")
    = Some sel1 →
  cells_ok (next_id w) h →
  VisualQueryEditor props1 h w = Some (r1, h1, w1) →
  next_id w1 ≤ next_id w2 →
  heap w2 !! query props2 = Some o2 →
  nullish_or_array (get (defaults_object o2 defaultQuery) "selectedColumns")
    = Some sel2 →
  ∃ r2 h2 w2',
    VisualQueryEditor props2 h1 w2 = Some (r2, h2, w2') ∧
    pid (unselectedColumnsSchemas r2) ≠ pid (unselectedColumnsSchemas r1) ∧
    (getColumnSchema r2 = getColumnSchema r1 →
     getTimeColumns r2 = getTimeColumns r1).
Proof.
  intros Ho1 Hsel1 Hok Hr1 Hnext Ho2 Hsel2.
  destruct (render_spec _ _ _ _ _ _ _ _ _ _ Ho1 Hsel1 Hok Hr1)
    as (_ & Hok1 & _).
  destruct (render_derived_cells _ _ _ _ _ _ _ _ Ho1 Hsel1 Hok Hr1)
    as (Hc3 & _ & Hlt).
  apply (hooks_ok_mono _ _ _ _ Hnext) in Hok1.
  destruct (render_total defaultQuery mapGreptimeTypeToGrafana props2 h1 w2 o2
              sel2 Ho2 Hsel2) as (r2 & h2 & w2' & Hr2).
  destruct (render_derived_cells _ _ _ _ _ _ _ _ Ho2 Hsel2 Hok1 Hr2)
    as (_ & Hge & _).
  exists r2, h2, w2'. split_and!; [done | lia |].
  intros Hsame.
  apply (render_timeColumns_hit _ _ _ _ _ _ _ _ _ Ho2 Hsel2 Hr2).
  by rewrite Hsame.
Qed.

(** ** A choice and the render that follows it *)

(** X8: the user chooses table [t] in the table picker and the host renders
    the query it is handed.  The table picker then shows [t]; the time
    column and the selected columns are those of the previous table, as
    nothing but [fromTable] is changed; the table list promise is kept.
    If [t] is the table already set, the column promise is kept and nothing
    is sent; otherwise the column promise is a new one, and the only
    request sent is the column request for [t] (none if [t] is empty). *)
Theorem table_change_then_render (props : Props) (h : Hooks) (w : world)
    (o : object) (sel : list entry) (t : string) :
  heap w !! query props = Some o →
  nullish_or_array (get (defaults_object o defaultQuery) "selectedColumns")
    = Some sel →
  cells_ok (next_id w) h →
  ∃ r1 h1 w1 w2 l r2 h2 w3,
    VisualQueryEditor props h w = Some (r1, h1, w1) ∧
    choose r1 FromTable_picker (toOption t) w1 = Some (tt, w2) ∧
    handed_over w1 w2 = [l] ∧
    VisualQueryEditor {| client := client props; query := l |} h1 w2
    = Some (r2, h2, w3) ∧
    fromTable_value r2 = VString t ∧
    r_timeColumn r2 = r_timeColumn r1 ∧
    r_selectedColumns r2 = r_selectedColumns r1 ∧
    getAllTables r2 = getAllTables r1 ∧
    (VString t = r_fromTable r1 →
     getColumnSchema r2 = getColumnSchema r1 ∧ requests w3 = requests w1) ∧
    (VString t ≠ r_fromTable r1 →
     pid (getColumnSchema r2) ≠ pid (getColumnSchema r1) ∧
     requests w3
     = requests w1
       ++ (if decide (t = "") then []
           else [(pid (getColumnSchema r2),
                  QueryColumnSchemaOfTable (client props) (VString t))])).
Proof.
  intros Ho Hsel Hok.
  destruct (render_total defaultQuery mapGreptimeTypeToGrafana props h w o sel
              Ho Hsel) as (r1 & h1 & w1 & Hr1).
  destruct (render_frame _ _ _ _ _ _ _ _ _ _ Ho Hsel Hr1)
    as (_ & _ & Hs1 & _ & _).
  assert (nullish_or_array
            (get (defaults_object
                    (spread_with (defaults_object o defaultQuery) "fromTable"
                                 (VString t)) defaultQuery) "selectedColumns")
          = Some sel) as Hsel2.
  { rewrite get_defaults_after_spread. by rewrite decide_False. }
  destruct (change_then_render _ _ _ _ _ _ _ _ _ _ _ Ho Hsel Hok Hr1 Hsel2)
    as (w2 & l & r2 & h2 & w3 & _ & _ & Hrun & Hout & _ & _ & Hr2 & Hs2 & Hfields
        & Htables & Hsame & Hnew & Hreq).
  destruct (Hfields "fromTable") as [Hft _]. specialize (Hft eq_refl).
  destruct (Hfields "timeColumn") as [_ Htc]. specialize (Htc eq_refl).
  rewrite decide_True in Hft by done. rewrite decide_False in Hft by done.
  rewrite decide_False in Htc by done.
  exists r1, h1, w1, w2, l, r2, h2, w3. split_and!; try done.
  - unfold fromTable_value. by rewrite Hft.
  - by rewrite Hs1, Hs2.
  - intros Heq. rewrite <- Heq, <- Hft in Hreq.
    rewrite decide_True in Hreq by done. rewrite app_nil_r in Hreq.
    split; [| done]. apply Hsame. by rewrite Hft.
  - intros Hne. split; [apply Hnew; by rewrite Hft |].
    rewrite Hreq, Hft. rewrite decide_False by done. simpl.
    destruct (decide (t = "")) as [-> | Ht]; [done |].
    destruct (String.eqb_spec t ""); [done | done].
Qed.

(** X9: the user chooses [c] in the time column picker and the host
    renders the query it is handed.  The picker then shows [c]; table and
    selected columns are as before; the three schema promises are the very
    same and no request is sent.  The handler takes any value: it does not
    look at the columns of the table. *)
Theorem time_column_change_then_render (props : Props) (h : Hooks) (w : world)
    (o : object) (sel : list entry) (c : string) :
  heap w !! query props = Some o →
  nullish_or_array (get (defaults_object o defaultQuery) "selectedColumns")
    = Some sel →
  cells_ok (next_id w) h →
  ∃ r1 h1 w1 w2 l r2 h2 w3,
    VisualQueryEditor props h w = Some (r1, h1, w1) ∧
    choose r1 TimeColumn_picker (toOption c) w1 = Some (tt, w2) ∧
    handed_over w1 w2 = [l] ∧
    VisualQueryEditor {| client := client props; query := l |} h1 w2
    = Some (r2, h2, w3) ∧
    timeColumn_value r2 = VString c ∧
    r_fromTable r2 = r_fromTable r1 ∧
    r_selectedColumns r2 = r_selectedColumns r1 ∧
    getAllTables r2 = getAllTables r1 ∧
    getColumnSchema r2 = getColumnSchema r1 ∧
    getTimeColumns r2 = getTimeColumns r1 ∧
    requests w3 = requests w1.
Proof.
  intros Ho Hsel Hok.
  destruct (render_total defaultQuery mapGreptimeTypeToGrafana props h w o sel
              Ho Hsel) as (r1 & h1 & w1 & Hr1).
  destruct (render_frame _ _ _ _ _ _ _ _ _ _ Ho Hsel Hr1)
    as (_ & _ & Hs1 & _ & _).
  assert (nullish_or_array
            (get (defaults_object
                    (spread_with (defaults_object o defaultQuery) "timeColumn"
                                 (VString c)) defaultQuery) "selectedColumns")
          = Some sel) as Hsel2.
  { rewrite get_defaults_after_spread. by rewrite decide_False. }
  destruct (change_then_render _ _ _ _ _ _ _ _ _ _ _ Ho Hsel Hok Hr1 Hsel2)
    as (w2 & l & r2 & h2 & w3 & _ & _ & Hrun & Hout & _ & _ & Hr2 & Hs2 & Hfields
        & Htables & Hsame & _ & Hreq).
  destruct (Hfields "fromTable") as [Hft _]. specialize (Hft eq_refl).
  destruct (Hfields "timeColumn") as [_ Htc]. specialize (Htc eq_refl).
  rewrite decide_False in Hft by done.
  rewrite decide_True in Htc by done. rewrite decide_False in Htc by done.
  rewrite decide_True in Hreq by done. rewrite app_nil_r in Hreq.
  destruct (Hsame Hft) as [Hcs Htcs].
  exists r1, h1, w1, w2, l, r2, h2, w3. split_and!; try done.
  - unfold timeColumn_value. by rewrite Htc.
  - by rewrite Hs1, Hs2.
Qed.

(** X10: the user chooses any name [v] in the add segment and the host
    renders the query it is handed.  The handler checks nothing: the new
    selection is the old one followed by [v], also when [v] is already
    selected.  In the next render [v] has a column segment of its own in
    the slot where the add segment was, the add segment comes after it, the
    schema promises are the very same, no request is sent, and the add
    segment no longer offers [v]. *)
Theorem append_then_render (props : Props) (h : Hooks) (w : world)
    (o : object) (sel : list entry) (v : string) :
  heap w !! query props = Some o →
  nullish_or_array (get (defaults_object o defaultQuery) "selectedColumns")
    = Some sel →
  cells_ok (next_id w) h →
  ∃ r1 h1 w1 w2 l r2 h2 w3,
    VisualQueryEditor props h w = Some (r1, h1, w1) ∧
    choose r1 (Slot_picker (length sel)) (toOption v) w1 = Some (tt, w2) ∧
    handed_over w1 w2 = [l] ∧
    selection w2 l = Some (sel ++ [Some v]) ∧
    VisualQueryEditor {| client := client props; query := l |} h1 w2
    = Some (r2, h2, w3) ∧
    r_selectedColumns r2 = sel ++ [Some v; Some sentinel] ∧
    segments (r_selectedColumns r2) !! length sel
    = Some (SegmentAsync (Some v)) ∧
    segments (r_selectedColumns r2) !! S (length sel) = Some AddSegment ∧
    r_fromTable r2 = r_fromTable r1 ∧
    getAllTables r2 = getAllTables r1 ∧
    getColumnSchema r2 = getColumnSchema r1 ∧
    requests w3 = requests w1 ∧
    (∀ b columns,
       settle (getColumnSchema r2) b = Fulfilled columns →
       ∃ opts, handleLoadUnselectedColumns r2 b = Fulfilled opts ∧
               toOption v ∉ opts).
Proof.
  intros Ho Hsel Hok.
  destruct (render_total defaultQuery mapGreptimeTypeToGrafana props h w o sel
              Ho Hsel) as (r1 & h1 & w1 & Hr1).
  destruct (render_frame _ _ _ _ _ _ _ _ _ _ Ho Hsel Hr1)
    as (_ & _ & Hs1 & _ & _).
  assert (nullish_or_array
            (get (defaults_object
                    (spread_with (defaults_object o defaultQuery)
                                 "selectedColumns" (VArray (sel ++ [Some v])))
                    defaultQuery) "selectedColumns")
          = Some (sel ++ [Some v])) as Hsel2.
  { rewrite get_defaults_after_spread. rewrite decide_True by done.
    by rewrite decide_False. }
  destruct (change_then_render _ _ _ _ _ _ _ _ _ _ _ Ho Hsel Hok Hr1 Hsel2)
    as (w2 & l & r2 & h2 & w3 & _ & _ & Hrun & Hout & Ho2 & Hok2 & Hr2 & Hs2
        & Hfields & Htables & Hsame & _ & Hreq).
  destruct (Hfields "fromTable") as [Hft _]. specialize (Hft eq_refl).
  rewrite decide_False in Hft by done.
  rewrite decide_True in Hreq by done. rewrite app_nil_r in Hreq.
  destruct (Hsame Hft) as [Hcs _].
  exists r1, h1, w1, w2, l, r2, h2, w3. split_and!; try done.
  - simpl. unfold choose_in_slot. rewrite Hs1, segments_add. simpl.
    unfold handleAddColumn. simpl. by rewrite Hs1, slice_0_m1_snoc.
  - unfold selection. rewrite Ho2. by rewrite get_spread_with_eq.
  - by rewrite Hs2, <- app_assoc.
  - rewrite Hs2. apply segments_column.
    rewrite lookup_app_r by lia. by rewrite Nat.sub_diag.
  - rewrite Hs2.
    replace (S (length sel)) with (length (sel ++ [Some v]))
      by (rewrite length_app; simpl; lia).
    apply segments_add.
  - intros b columns Hcols.
    destruct (render_options defaultQuery mapGreptimeTypeToGrafana
                {| client := client props; query := l |} _ _ _ _ _ _ _ b
                Ho2 Hsel2 Hok2 Hr2)
      as (_ & Hu & _).
    rewrite Hcols in Hu. simpl in Hu. eexists. split; [exact Hu |].
    intros Hin. apply list_elem_of_fmap in Hin as (column & Heq & Hin).
    unfold unselectedColumns in Hin.
    apply list_elem_of_filter in Hin as [Hnot _].
    injection Heq as Heq. rewrite <- Heq in Hnot.
    assert (includes ((sel ++ [Some v]) ++ [Some sentinel]) v = true) as Hinc.
    { apply includes_true. rewrite !elem_of_app.
      left. right. by apply list_elem_of_singleton. }
    by rewrite Hinc in Hnot.
Qed.

(** ** What is handed to the host *)

(** X11: the object a change handler hands to the host carries the
    defaults: under every key other than the changed one it reads what the
    host's object read, or the value of [defaultQuery] where that read
    [undefined].  So the defaults are persisted with the first change. *)
Theorem committed_query_carries_defaults (props : Props) (h : Hooks)
    (w : world) (o : object) (sel : list entry) (key : string) (v : jsval) :
  heap w !! query props = Some o →
  nullish_or_array (get (defaults_object o defaultQuery) "selectedColumns")
    = Some sel →
  ∃ r h' w1 w2 l q',
    VisualQueryEditor props h w = Some (r, h', w1) ∧
    changeQueryByKey r key v w1 = Some (tt, w2) ∧
    handed_over w1 w2 = [l] ∧
    heap w2 !! l = Some q' ∧
    get q' key = v ∧
    (∀ k, k ≠ key →
          get q' k = if decide (get o k = VUndefined) then get defaultQuery k
                     else get o k).
Proof.
  intros Ho Hsel.
  destruct (render_total defaultQuery mapGreptimeTypeToGrafana props h w o sel
              Ho Hsel) as (r & h' & w1 & Hr).
  destruct (render_selection _ _ _ _ _ _ _ _ _ _ Ho Hsel Hr) as [Hq _].
  pose proof (changeQueryByKey_run r key v w1 _ Hq) as Hrun. simpl in Hrun.
  eexists r, h', w1, _, (fresh (dom (heap w1))),
    (spread_with (defaults_object o defaultQuery) key v).
  split_and!; [done | exact Hrun | | | |].
  - by apply handed_over_snoc.
  - simpl. apply lookup_insert_eq.
  - apply get_spread_with_eq.
  - intros k Hk. rewrite get_spread_with_ne by done. case_decide.
    + by apply get_defaults_object_unset.
    + by apply get_defaults_object_set.
Qed.

(** ** Option lists without repetition *)

Lemma options_NoDup (P : ColumnSchema → Prop) `{∀ c, Decision (P c)}
    (columns : list ColumnSchema) :
  NoDup (name <$> columns) →
  NoDup ((λ column, toOption (name column)) <$> filter P columns).
Proof.
  induction columns as [| c columns IH]; [constructor |].
  rewrite fmap_cons, NoDup_cons. intros [Hc Hnd].
  rewrite filter_cons. destruct (decide (P c)); [| by apply IH].
  rewrite fmap_cons, NoDup_cons. split; [| by apply IH].
  intros Hin. apply list_elem_of_fmap in Hin as (c' & Heq & Hin).
  apply list_elem_of_filter in Hin as [_ Hin]. injection Heq as Heq.
  apply Hc. rewrite Heq. by apply list_elem_of_fmap_2.
Qed.

(** X12: when the column names of the table are pairwise different, no
    picker shows an option twice.  The add segment offers every column that
    is neither selected nor named like the sentinel, each exactly once, and
    nothing else; a column segment offers its own entry first and exactly
    once, followed by exactly the list the add segment offers. *)
Theorem column_options_without_repetition (props : Props) (h : Hooks)
    (w : world) (o : object) (sel : list entry) :
  heap w !! query props = Some o →
  nullish_or_array (get (defaults_object o defaultQuery) "selectedColumns")
    = Some sel →
  cells_ok (next_id w) h →
  ∃ r h' w',
    VisualQueryEditor props h w = Some (r, h', w') ∧
    ∀ b columns,
      settle (getColumnSchema r) b = Fulfilled columns →
      NoDup (name <$> columns) →
      ∃ opts,
        handleLoadUnselectedColumns r b = Fulfilled opts ∧
        NoDup opts ∧
        (∀ column, column ∈ columns →
                   Some (name column) ∉ sel → name column ≠ sentinel →
                   toOption (name column) ∈ opts) ∧
        (∀ opt, opt ∈ opts →
                ∃ column, column ∈ columns ∧ opt = toOption (name column) ∧
                          (Some (name column) ∉ sel) ∧
                          name column ≠ sentinel) ∧
        (∀ e, e ∈ sel → toOption_entry e ∉ opts) ∧
        (∀ i e, sel !! i = Some e →
           ∃ s, segments (r_selectedColumns r) !! i = Some s ∧
                segment_loadOptions r s b = Fulfilled (toOption_entry e :: opts) ∧
                NoDup (toOption_entry e :: opts)).
Proof.
  intros Ho Hsel Hok.
  destruct (render_total defaultQuery mapGreptimeTypeToGrafana props h w o sel
              Ho Hsel) as (r & h' & w' & Hr).
  destruct (render_frame _ _ _ _ _ _ _ _ _ _ Ho Hsel Hr)
    as (_ & _ & Hs & _ & _).
  exists r, h', w'. split; [done |]. intros b columns Hcols Hnd.
  destruct (render_options _ _ _ _ _ _ _ _ _ _ b Ho Hsel Hok Hr) as (_ & Hu & _).
  rewrite Hcols in Hu. simpl in Hu. rewrite unselectedColumns_sentinel in Hu.
  set (opts := (λ column, toOption (name column))
               <$> filter (λ column, (Some (name column) ∉ sel)
                                     ∧ (name column ≠ sentinel)) columns) in *.
  assert (∀ opt, opt ∈ opts →
            ∃ column, column ∈ columns ∧ opt = toOption (name column) ∧
                      (Some (name column) ∉ sel) ∧ name column ≠ sentinel)
    as Hsound.
  { intros opt Hopt. apply list_elem_of_fmap in Hopt as (column & -> & Hc).
    apply list_elem_of_filter in Hc as [[? ?] ?]. by exists column. }
  assert (∀ e, e ∈ sel → toOption_entry e ∉ opts) as Hnot.
  { intros e Hin Hopt. destruct (Hsound _ Hopt) as (column & _ & Heq & Hc & _).
    unfold toOption_entry, toOption in Heq. injection Heq as Heq _.
    by rewrite Heq in Hin. }
  assert (NoDup opts) as Hopts by (by apply options_NoDup).
  exists opts. split_and!; try done.
  - intros column Hin Hsel' Hne. apply list_elem_of_fmap.
    exists column. split; [done |]. by apply list_elem_of_filter.
  - intros i e Hi. exists (SegmentAsync e). rewrite Hs.
    split; [by apply segments_column |].
    simpl. unfold handleLoadReselectColumns. rewrite Hu. simpl.
    split; [done |].
    apply NoDup_cons. split; [| done].
    apply Hnot. by apply (list_elem_of_lookup_2 _ i).
Qed.

(** ** Handlers never write into an object *)

(** X13: in every render, whatever the user chooses in whatever picker on
    screen - the table, the time column, the add segment or a column
    segment, with or without a value in the chosen option - the handler
    returns, no object that existed has been written, and the host has been
    handed at most one object, a newly allocated one. *)
Theorem choose_writes_no_existing_object (props : Props) (h : Hooks)
    (w : world) (o : object) (sel : list entry) :
  heap w !! query props = Some o →
  nullish_or_array (get (defaults_object o defaultQuery) "selectedColumns")
    = Some sel →
  ∃ r h' w1,
    VisualQueryEditor props h w = Some (r, h', w1) ∧
    ∀ p select,
      (∀ idx, p = Slot_picker idx → idx ≤ length sel) →
      ∃ w2,
        choose r p select w1 = Some (tt, w2) ∧
        (∀ l0 o0, heap w1 !! l0 = Some o0 → heap w2 !! l0 = Some o0) ∧
        (handed_over w1 w2 = [] ∨
         ∃ l, handed_over w1 w2 = [l] ∧ heap w1 !! l = None ∧
              is_Some (heap w2 !! l)).
Proof.
  intros Ho Hsel.
  destruct (render_total defaultQuery mapGreptimeTypeToGrafana props h w o sel
              Ho Hsel) as (r & h' & w1 & Hr).
  destruct (render_frame _ _ _ _ _ _ _ _ _ _ Ho Hsel Hr)
    as (_ & _ & Hs & _ & _).
  destruct (render_selection _ _ _ _ _ _ _ _ _ _ Ho Hsel Hr) as [Hq _].
  exists r, h', w1. split; [done |]. intros p select Hslot.
  assert (∃ w2, choose r p select w1 = Some (tt, w2)) as [w2 Hrun].
  { destruct p as [| | idx]; simpl.
    - eexists. by apply changeQueryByKey_run.
    - eexists. by apply changeQueryByKey_run.
    - specialize (Hslot idx eq_refl). unfold choose_in_slot. rewrite Hs.
      destruct (decide (idx = length sel)) as [-> | Hne].
      + rewrite segments_add. simpl. unfold handleAddColumn.
        eexists. by apply changeQueryByKey_run.
      + destruct (lookup_lt_is_Some_2 sel idx) as [e He]; [lia |].
        rewrite (segments_column _ _ _ He). simpl. by eexists. }
  exists w2. split; [done |]. by apply (choose_keeps_objects r p select).
Qed.

End Further.

(** ** The further statements at the running example *)

Lemma table_options_exact_witness :
  ∃ r h' w',
    Scenario.render Scenario.props mount (Scenario.host (Scenario.query_of "metrics" ["cpu"])) = Some (r, h', w') ∧
    ∀ b tables,
      tables_answer b (pid (getAllTables r)) = Fulfilled tables →
      ∃ opts,
        handleLoadFromTables r b = Fulfilled opts ∧
        length opts = length tables ∧
        (∀ i, opts !! i = toOption <$> tables !! i) ∧
        (∀ t, t ∈ tables → {| label := Some t; value := Some t |} ∈ opts).
Proof.
  apply (table_options_exact Scenario.defaultQuery Scenario.mapGreptimeTypeToGrafana
           Scenario.props
           mount
           (Scenario.host (Scenario.query_of "metrics" ["cpu"]))
           (Scenario.query_of "metrics" ["cpu"])
           [Some "cpu"]);
    [reflexivity | reflexivity | apply mount_ok].
Defined.

Lemma loaders_follow_failed_requests_witness :
  ∃ r h' w',
    Scenario.render Scenario.props mount (Scenario.host (Scenario.query_of "metrics" ["cpu"])) = Some (r, h', w') ∧
    ∀ b,
      (∀ reason,
         tables_answer b (pid (getAllTables r)) = Rejected reason →
         handleLoadFromTables r b = Rejected reason) ∧
      (tables_answer b (pid (getAllTables r)) = Pending →
       handleLoadFromTables r b = Pending) ∧
      (truthy (r_fromTable r) = true →
       (∀ reason,
          columns_answer b (pid (getColumnSchema r)) = Rejected reason →
          loadTimeColumns r b = Rejected reason ∧
          handleLoadUnselectedColumns r b = Rejected reason ∧
          ∀ selfVal, handleLoadReselectColumns r selfVal b = Rejected reason) ∧
       (columns_answer b (pid (getColumnSchema r)) = Pending →
        loadTimeColumns r b = Pending ∧
        handleLoadUnselectedColumns r b = Pending ∧
        ∀ selfVal, handleLoadReselectColumns r selfVal b = Pending)).
Proof.
  apply (loaders_follow_failed_requests Scenario.defaultQuery Scenario.mapGreptimeTypeToGrafana
           Scenario.props
           mount
           (Scenario.host (Scenario.query_of "metrics" ["cpu"]))
           (Scenario.query_of "metrics" ["cpu"])
           [Some "cpu"]);
    [reflexivity | reflexivity | apply mount_ok].
Defined.

Lemma first_render_requests_witness :
  ∃ r h' w',
    Scenario.render Scenario.props mount (Scenario.host (Scenario.query_of "metrics" ["cpu"])) = Some (r, h', w') ∧
    requests w'
    = requests (Scenario.host (Scenario.query_of "metrics" ["cpu"]))
      ++ [(pid (getAllTables r), ShowTables (client Scenario.props))]
      ++ (if truthy (r_fromTable r)
          then [(pid (getColumnSchema r),
                 QueryColumnSchemaOfTable (client Scenario.props) (r_fromTable r))]
          else []) ∧
    pid (getAllTables r) ≠ pid (getColumnSchema r) ∧
    next_id (Scenario.host (Scenario.query_of "metrics" ["cpu"])) ≤ pid (getAllTables r) ∧
    next_id (Scenario.host (Scenario.query_of "metrics" ["cpu"])) ≤ pid (getColumnSchema r).
Proof.
  apply (first_render_requests Scenario.defaultQuery Scenario.mapGreptimeTypeToGrafana
           Scenario.props
           (Scenario.host (Scenario.query_of "metrics" ["cpu"]))
           (Scenario.query_of "metrics" ["cpu"])
           [Some "cpu"]);
    [reflexivity | reflexivity].
Defined.

Lemma rerender_sends_nothing_witness :
  ∃ r1 h1 w1,
    Scenario.render Scenario.props mount (Scenario.host (Scenario.query_of "metrics" ["cpu"])) = Some (r1, h1, w1) ∧
    ∀ n, ∃ r2 h2 w2,
      (rerender Scenario.defaultQuery Scenario.mapGreptimeTypeToGrafana) n Scenario.props (r1, h1) w1 = Some ((r2, h2), w2) ∧
      requests w2 = requests w1 ∧
      heap w2 = heap w1 ∧
      emitted w2 = emitted w1 ∧
      getAllTables r2 = getAllTables r1 ∧
      getColumnSchema r2 = getColumnSchema r1 ∧
      getTimeColumns r2 = getTimeColumns r1.
Proof.
  apply (rerender_sends_nothing Scenario.defaultQuery Scenario.mapGreptimeTypeToGrafana
           Scenario.props
           mount
           (Scenario.host (Scenario.query_of "metrics" ["cpu"]))
           (Scenario.query_of "metrics" ["cpu"])
           [Some "cpu"]);
    [reflexivity | reflexivity | apply mount_ok].
Defined.

Lemma sections_keys_and_labels_witness :
  ∃ r h' w',
    Scenario.render Scenario.props mount (Scenario.host (Scenario.query_of "metrics" ["cpu"])) = Some (r, h', w') ∧
    length (sections (r_selectedColumns r)) = S (length [Some "cpu"]) ∧
    section_body <$> sections (r_selectedColumns r)
    = (SegmentAsync <$> [Some "cpu"]) ++ [AddSegment] ∧
    section_key <$> sections (r_selectedColumns r) = [Some "cpu"] ++ [Some sentinel] ∧
    (NoDup (section_key <$> sections (r_selectedColumns r)) ↔
     NoDup [Some "cpu"] ∧ Some sentinel ∉ [Some "cpu"]) ∧
    (∀ i s, sections (r_selectedColumns r) !! i = Some s →
            (section_label s = "SELECT" ↔ i = 0)).
Proof.
  apply (sections_keys_and_labels Scenario.defaultQuery Scenario.mapGreptimeTypeToGrafana
           Scenario.props
           mount
           (Scenario.host (Scenario.query_of "metrics" ["cpu"]))
           (Scenario.query_of "metrics" ["cpu"])
           [Some "cpu"]);
    [reflexivity | reflexivity].
Defined.

Lemma table_change_then_render_witness :
  ∃ r1 h1 w1 w2 l r2 h2 w3,
    Scenario.render Scenario.props mount (Scenario.host (Scenario.query_of "metrics" ["cpu"])) = Some (r1, h1, w1) ∧
    choose r1 FromTable_picker (toOption "logs") w1 = Some (tt, w2) ∧
    handed_over w1 w2 = [l] ∧
    Scenario.render {| client := client Scenario.props; query := l |} h1 w2
    = Some (r2, h2, w3) ∧
    fromTable_value r2 = VString "logs" ∧
    r_timeColumn r2 = r_timeColumn r1 ∧
    r_selectedColumns r2 = r_selectedColumns r1 ∧
    getAllTables r2 = getAllTables r1 ∧
    (VString "logs" = r_fromTable r1 →
     getColumnSchema r2 = getColumnSchema r1 ∧ requests w3 = requests w1) ∧
    (VString "logs" ≠ r_fromTable r1 →
     pid (getColumnSchema r2) ≠ pid (getColumnSchema r1) ∧
     requests w3
     = requests w1
       ++ (if decide ("logs" = "") then []
           else [(pid (getColumnSchema r2),
                  QueryColumnSchemaOfTable (client Scenario.props) (VString "logs"))])).
Proof.
  apply (table_change_then_render Scenario.defaultQuery Scenario.mapGreptimeTypeToGrafana
           Scenario.props
           mount
           (Scenario.host (Scenario.query_of "metrics" ["cpu"]))
           (Scenario.query_of "metrics" ["cpu"])
           [Some "cpu"]
           "logs");
    [reflexivity | reflexivity | apply mount_ok].
Defined.

Lemma time_column_change_then_render_witness :
  ∃ r1 h1 w1 w2 l r2 h2 w3,
    Scenario.render Scenario.props mount (Scenario.host (Scenario.query_of "metrics" ["cpu"])) = Some (r1, h1, w1) ∧
    choose r1 TimeColumn_picker (toOption "ts") w1 = Some (tt, w2) ∧
    handed_over w1 w2 = [l] ∧
    Scenario.render {| client := client Scenario.props; query := l |} h1 w2
    = Some (r2, h2, w3) ∧
    timeColumn_value r2 = VString "ts" ∧
    r_fromTable r2 = r_fromTable r1 ∧
    r_selectedColumns r2 = r_selectedColumns r1 ∧
    getAllTables r2 = getAllTables r1 ∧
    getColumnSchema r2 = getColumnSchema r1 ∧
    getTimeColumns r2 = getTimeColumns r1 ∧
    requests w3 = requests w1.
Proof.
  apply (time_column_change_then_render Scenario.defaultQuery Scenario.mapGreptimeTypeToGrafana
           Scenario.props
           mount
           (Scenario.host (Scenario.query_of "metrics" ["cpu"]))
           (Scenario.query_of "metrics" ["cpu"])
           [Some "cpu"]
           "ts");
    [reflexivity | reflexivity | apply mount_ok].
Defined.

Lemma append_then_render_witness :
  ∃ r1 h1 w1 w2 l r2 h2 w3,
    Scenario.render Scenario.props mount (Scenario.host (Scenario.query_of "metrics" ["cpu"])) = Some (r1, h1, w1) ∧
    choose r1 (Slot_picker (length [Some "cpu"])) (toOption "ts") w1 = Some (tt, w2) ∧
    handed_over w1 w2 = [l] ∧
    selection w2 l = Some ([Some "cpu"] ++ [Some "ts"]) ∧
    Scenario.render {| client := client Scenario.props; query := l |} h1 w2
    = Some (r2, h2, w3) ∧
    r_selectedColumns r2 = [Some "cpu"] ++ [Some "ts"; Some sentinel] ∧
    segments (r_selectedColumns r2) !! length [Some "cpu"]
    = Some (SegmentAsync (Some "ts")) ∧
    segments (r_selectedColumns r2) !! S (length [Some "cpu"]) = Some AddSegment ∧
    r_fromTable r2 = r_fromTable r1 ∧
    getAllTables r2 = getAllTables r1 ∧
    getColumnSchema r2 = getColumnSchema r1 ∧
    requests w3 = requests w1 ∧
    (∀ b columns,
       settle (getColumnSchema r2) b = Fulfilled columns →
       ∃ opts, handleLoadUnselectedColumns r2 b = Fulfilled opts ∧
               toOption "ts" ∉ opts).
Proof.
  apply (append_then_render Scenario.defaultQuery Scenario.mapGreptimeTypeToGrafana
           Scenario.props
           mount
           (Scenario.host (Scenario.query_of "metrics" ["cpu"]))
           (Scenario.query_of "metrics" ["cpu"])
           [Some "cpu"]
           "ts");
    [reflexivity | reflexivity | apply mount_ok].
Defined.

Lemma committed_query_carries_defaults_witness :
  ∃ r h' w1 w2 l q',
    Scenario.render Scenario.props mount (Scenario.host Scenario.new_query) = Some (r, h', w1) ∧
    changeQueryByKey r "fromTable" (VString "metrics") w1 = Some (tt, w2) ∧
    handed_over w1 w2 = [l] ∧
    heap w2 !! l = Some q' ∧
    get q' "fromTable" = (VString "metrics") ∧
    (∀ k, k ≠ "fromTable" →
          get q' k = if decide (get Scenario.new_query k = VUndefined) then get Scenario.defaultQuery k
                     else get Scenario.new_query k).
Proof.
  apply (committed_query_carries_defaults Scenario.defaultQuery Scenario.mapGreptimeTypeToGrafana
           Scenario.props mount (Scenario.host Scenario.new_query)
           Scenario.new_query [] "fromTable" (VString "metrics"));
    reflexivity.
Defined.

Lemma column_options_without_repetition_witness :
  ∃ r h' w',
    Scenario.render Scenario.props mount (Scenario.host (Scenario.query_of "metrics" ["cpu"])) = Some (r, h', w') ∧
    ∀ b columns,
      settle (getColumnSchema r) b = Fulfilled columns →
      NoDup (name <$> columns) →
      ∃ opts,
        handleLoadUnselectedColumns r b = Fulfilled opts ∧
        NoDup opts ∧
        (∀ column, column ∈ columns →
                   Some (name column) ∉ [Some "cpu"] → name column ≠ sentinel →
                   toOption (name column) ∈ opts) ∧
        (∀ opt, opt ∈ opts →
                ∃ column, column ∈ columns ∧ opt = toOption (name column) ∧
                          (Some (name column) ∉ [Some "cpu"]) ∧
                          name column ≠ sentinel) ∧
        (∀ e, e ∈ [Some "cpu"] → toOption_entry e ∉ opts) ∧
        (∀ i e, [Some "cpu"] !! i = Some e →
           ∃ s, segments (r_selectedColumns r) !! i = Some s ∧
                segment_loadOptions r s b = Fulfilled (toOption_entry e :: opts) ∧
                NoDup (toOption_entry e :: opts)).
Proof.
  apply (column_options_without_repetition Scenario.defaultQuery Scenario.mapGreptimeTypeToGrafana
           Scenario.props
           mount
           (Scenario.host (Scenario.query_of "metrics" ["cpu"]))
           (Scenario.query_of "metrics" ["cpu"])
           [Some "cpu"]);
    [reflexivity | reflexivity | apply mount_ok].
Defined.

Lemma choose_writes_no_existing_object_witness :
  ∃ r h' w1,
    Scenario.render Scenario.props mount (Scenario.host (Scenario.query_of "metrics" ["cpu"])) = Some (r, h', w1) ∧
    ∀ p select,
      (∀ idx, p = Slot_picker idx → idx ≤ length [Some "cpu"]) →
      ∃ w2,
        choose r p select w1 = Some (tt, w2) ∧
        (∀ l0 o0, heap w1 !! l0 = Some o0 → heap w2 !! l0 = Some o0) ∧
        (handed_over w1 w2 = [] ∨
         ∃ l, handed_over w1 w2 = [l] ∧ heap w1 !! l = None ∧
              is_Some (heap w2 !! l)).
Proof.
  apply (choose_writes_no_existing_object Scenario.defaultQuery Scenario.mapGreptimeTypeToGrafana
           Scenario.props
           mount
           (Scenario.host (Scenario.query_of "metrics" ["cpu"]))
           (Scenario.query_of "metrics" ["cpu"])
           [Some "cpu"]);
    [reflexivity | reflexivity].
Defined.

Lemma render_throws_iff_selection_ill_typed_witness :
  Scenario.render Scenario.props mount (Scenario.host Scenario.ill_typed_query)
  = None.
Proof.
  apply (proj1 (render_throws_iff_selection_ill_typed Scenario.defaultQuery
                  Scenario.mapGreptimeTypeToGrafana Scenario.props mount
                  (Scenario.host Scenario.ill_typed_query)
                  Scenario.ill_typed_query eq_refl)).
  reflexivity.
Defined.

Lemma unselected_columns_recomputed_every_render_witness :
  ∃ r1 h1 w1,
    Scenario.render Scenario.props mount
      (Scenario.host (Scenario.query_of "metrics" ["cpu"])) = Some (r1, h1, w1) ∧
    ∃ r2 h2 w2,
      Scenario.render Scenario.props h1 w1 = Some (r2, h2, w2) ∧
      pid (unselectedColumnsSchemas r2) ≠ pid (unselectedColumnsSchemas r1) ∧
      (getColumnSchema r2 = getColumnSchema r1 →
       getTimeColumns r2 = getTimeColumns r1).
Proof.
  set (o := Scenario.query_of "metrics" ["cpu"]).
  assert (heap (Scenario.host o) !! query Scenario.props = Some o) as Ho
    by reflexivity.
  assert (nullish_or_array
            (get (defaults_object o Scenario.defaultQuery) "selectedColumns")
          = Some [Some "cpu"]) as Hsel by reflexivity.
  destruct (render_total Scenario.defaultQuery Scenario.mapGreptimeTypeToGrafana
              Scenario.props mount (Scenario.host o) o [Some "cpu"] Ho Hsel)
    as (r1 & h1 & w1 & Hr1).
  exists r1, h1, w1. split; [exact Hr1 |].
  destruct (render_frame _ _ _ _ _ _ _ _ _ _ Ho Hsel Hr1)
    as (_ & _ & _ & Hh1 & _).
  assert (heap w1 !! query Scenario.props
          = Some (defaults_object o Scenario.defaultQuery)) as Ho2.
  { rewrite Hh1. apply lookup_insert_eq. }
  assert (nullish_or_array
            (get (defaults_object (defaults_object o Scenario.defaultQuery)
                                  Scenario.defaultQuery) "selectedColumns")
          = Some [Some "cpu"]) as Hsel2 by reflexivity.
  exact (unselected_columns_recomputed_every_render Scenario.defaultQuery
           Scenario.mapGreptimeTypeToGrafana Scenario.props Scenario.props
           mount h1 (Scenario.host o) w1 w1 o _ [Some "cpu"] [Some "cpu"] r1
           Ho Hsel (mount_ok _ _) Hr1 (le_n _) Ho2 Hsel2).
Defined.

